(** * nose-mongoengine: the MongoEnginePlugin life cycle

    A model of [nose_mongoengine/__init__.py]: the helpers [scan_path] and
    [get_open_port] and the methods [configure], [stopContext] and [finalize]
    of [MongoEnginePlugin], as state transformers over the plugin object and
    the part of the operating system they touch (environment, file system,
    child processes, client connections, database contents).  The answers of
    the outside world to the library calls are gathered in a record [World];
    the theorems hold for every world. *)

From stdpp Require Import gmap strings list fin_maps pretty.
From Stdlib Require Import NArith ZArith Ascii.

Open Scope string_scope.
Open Scope nat_scope.

(** * Python values and exceptions *)

Inductive exn : Type :=
  | AssertionError (msg : string)
  | AttributeError (attr : string)
  | KeyError (key : string)
  | OSError
  | IOError
  | SocketError
  | OperationFailure
  | ConnectionFailure
  | TypeError
  | ValueError
  | PyError (name : string).

Inductive result (A : Type) : Type :=
  | Ok (a : A)
  | Raise (e : exn).
Arguments Ok {A} a.
Arguments Raise {A} e.

(** [except OperationFailure] *)
Definition is_OperationFailure (e : exn) : bool :=
  match e with OperationFailure => true | _ => false end.

(** Truth value of [str or None] and of [int]. *)
Definition truthy (o : option string) : bool :=
  match o with
  | None => false
  | Some s => negb (String.eqb s "")
  end.

(** ["%r" % s] for a plain string. *)
Definition repr (s : string) : string := "'" +:+ s +:+ "'".

(** The class name of an exception, as its [%r] starts. *)
Definition exn_name (e : exn) : string :=
  match e with
  | AssertionError _ => "AssertionError"
  | AttributeError _ => "AttributeError"
  | KeyError _ => "KeyError"
  | OSError => "OSError"
  | IOError => "IOError"
  | SocketError => "error"
  | OperationFailure => "OperationFailure"
  | ConnectionFailure => "ConnectionFailure"
  | TypeError => "TypeError"
  | ValueError => "ValueError"
  | PyError name => name
  end.

(** [s.split(":")] *)
Fixpoint split_colon (s : string) : list string :=
  match s with
  | EmptyString => [""]
  | String c s' =>
      if Ascii.eqb c ":" then "" :: split_colon s'
      else match split_colon s' with
           | h :: t => String c h :: t
           | [] => [String c ""]
           end
  end.

Fixpoint ends_with_slash (s : string) : bool :=
  match s with
  | EmptyString => false
  | String c EmptyString => Ascii.eqb c "/"
  | String _ s' => ends_with_slash s'
  end.

(** [os.path.join(p, name)] for a relative [name]. *)
Definition path_join (p name : string) : string :=
  if String.eqb p "" then name
  else if ends_with_slash p then p +:+ name
  else p +:+ "/" +:+ name.

(** * The operating system as the plugin sees it *)

Inductive stdio : Type :=
  | Inherited          (* None: the child shares the parent's stream *)
  | PIPE               (* subprocess.PIPE: a new pipe, read end kept by the parent *)
  | STDOUT             (* subprocess.STDOUT: same destination as stdout *)
  | ToFile (path : string).

Record Popen : Type := mkPopen {
  pid : nat;
  args : list string;
  stdout : stdio;
  stderr : stdio;
}.

Inductive pstatus : Type :=
  | Running
  | Signalled          (* kill()/terminate() delivered, not yet reaped *)
  | Reaped.            (* wait() returned *)

Record OS : Type := mkOS {
  environ : gmap string string;          (* os.environ *)
  files : gset string;                   (* paths for which os.path.exists holds *)
  procs : gmap nat pstatus;              (* child processes by pid *)
  conns : gset nat;                      (* open pymongo connections *)
  dbs : gmap string (list string);       (* collection names per database *)
}.

Definition set_environ (f : gmap string string → gmap string string) (o : OS) : OS :=
  mkOS (f (environ o)) (files o) (procs o) (conns o) (dbs o).
Definition set_files (f : gset string → gset string) (o : OS) : OS :=
  mkOS (environ o) (f (files o)) (procs o) (conns o) (dbs o).
Definition set_procs (f : gmap nat pstatus → gmap nat pstatus) (o : OS) : OS :=
  mkOS (environ o) (files o) (f (procs o)) (conns o) (dbs o).
Definition set_conns (f : gset nat → gset nat) (o : OS) : OS :=
  mkOS (environ o) (files o) (procs o) (f (conns o)) (dbs o).
Definition set_dbs (f : gmap string (list string) → gmap string (list string))
    (o : OS) : OS :=
  mkOS (environ o) (files o) (procs o) (conns o) (f (dbs o)).

(** What the world answers to the library calls the plugin makes.  Every
    theorem below quantifies over all of it. *)
Record World : Type := mkWorld {
  abspath : string → string;             (* os.path.abspath *)
  expanduser : string → string;          (* os.path.expanduser *)
  expandvars : string → string;          (* os.path.expandvars *)
  open_raises : string → option exn;     (* open(path, "w") *)
  bind_port : result Z;                  (* port the OS assigns to (host, 0) *)
  rnd : nat → nat;                       (* successive draws of random() *)
  mkdtemp_name : result string;          (* tempfile.mkdtemp() *)
  popen_pid : result nat;                (* subprocess.Popen(...) *)
  sleep_raises : option exn;             (* time.sleep(0.3) *)
  connect_raises : option exn;           (* mongoengine connect(...) *)
  platform : string;                     (* sys.platform *)
  signal_raises : option exn;            (* Popen.kill() / Popen.terminate() *)
  wait_raises : option exn;              (* Popen.wait() *)
  rmtree_raises : option exn;            (* shutil.rmtree(...) *)
  Connection_raises : option exn;        (* pymongo Connection(...) *)
  collection_names_raises : option exn;  (* Database.collection_names() *)
  drop_collection_raises : string → option exn;
}.

(** * The plugin object *)

Record Plugin : Type := mkPlugin {
  mongodb_bin : option string;
  db_port : option Z;
  db_path : option string;
  process : option Popen;
  _running : bool;
  _enabled : bool;
  mongo_database : option string;
  (* inherited from nose's Plugin *)
  enabled : bool;
  (* attributes that exist only once configure has assigned them *)
  db_log_path : option string;
  db_prealloc : option bool;
  db_scripting : option bool;
  clear_after_module : option bool;
  clear_after_class : option bool;
}.

(** [MongoEnginePlugin.__init__] *)
Definition init : Plugin :=
  mkPlugin None None None None false false None false None None None None None.

Definition set_mongodb_bin v '(mkPlugin _ b c d e f g h i j k l m) :=
  mkPlugin v b c d e f g h i j k l m.
Definition set_db_port v '(mkPlugin a _ c d e f g h i j k l m) :=
  mkPlugin a v c d e f g h i j k l m.
Definition set_db_path v '(mkPlugin a b _ d e f g h i j k l m) :=
  mkPlugin a b v d e f g h i j k l m.
Definition set_process v '(mkPlugin a b c _ e f g h i j k l m) :=
  mkPlugin a b c v e f g h i j k l m.
Definition set__running v '(mkPlugin a b c d _ f g h i j k l m) :=
  mkPlugin a b c d v f g h i j k l m.
Definition set__enabled v '(mkPlugin a b c d e _ g h i j k l m) :=
  mkPlugin a b c d e v g h i j k l m.
Definition set_mongo_database v '(mkPlugin a b c d e f _ h i j k l m) :=
  mkPlugin a b c d e f v h i j k l m.
Definition set_enabled v '(mkPlugin a b c d e f g _ i j k l m) :=
  mkPlugin a b c d e f g v i j k l m.
Definition set_db_log_path v '(mkPlugin a b c d e f g h _ j k l m) :=
  mkPlugin a b c d e f g h v j k l m.
Definition set_db_prealloc v '(mkPlugin a b c d e f g h i _ k l m) :=
  mkPlugin a b c d e f g h i v k l m.
Definition set_db_scripting v '(mkPlugin a b c d e f g h i j _ l m) :=
  mkPlugin a b c d e f g h i j v l m.
Definition set_clear_after_module v '(mkPlugin a b c d e f g h i j k _ m) :=
  mkPlugin a b c d e f g h i j k v m.
Definition set_clear_after_class v '(mkPlugin a b c d e f g h i j k l _) :=
  mkPlugin a b c d e f g h i j k l v.

(** Parsed command line, with optparse's [dest] names. *)
Module Opt.
Record t : Type := mk {
  mongoengine : bool;
  mongodb_bin : option string;
  mongoengine_clear_after_module : bool;
  mongoengine_clear_after_class : bool;
  mongodb_port : Z;
  mongodb_scripting : bool;
  mongodb_logpath : string;
  mongodb_prealloc : bool;
}.
(** The defaults declared in [MongoEnginePlugin.options]. *)
Definition defaults : t := mk false None false false 0%Z false "/dev/null" false.
End Opt.

(** The argument of [stopContext]. *)
Inductive context : Type :=
  | ModuleContext
  | ClassContext
  | OtherContext.

Definition ismodule (c : context) : bool :=
  match c with ModuleContext => true | _ => false end.
Definition isclass (c : context) : bool :=
  match c with ClassContext => true | _ => false end.

(** * A state-and-exception monad for the plugin's methods *)

Record State : Type := mkState { os : OS; self : Plugin }.

Definition M (A : Type) : Type := State → result A * State.

Definition ret {A} (a : A) : M A := λ s, (Ok a, s).
Definition bind {A B} (m : M A) (k : A → M B) : M B :=
  λ s, match m s with
       | (Ok a, s') => k a s'
       | (Raise e, s') => (Raise e, s')
       end.
Definition raise {A} (e : exn) : M A := λ s, (Raise e, s).

Global Instance M_ret : MRet M := @ret.
Global Instance M_bind : MBind M := λ A B k m, bind m k.

Definition get_self : M Plugin := λ s, (Ok (self s), s).
Definition get_os : M OS := λ s, (Ok (os s), s).
Definition upd_self (f : Plugin → Plugin) : M unit :=
  λ s, (Ok tt, mkState (os s) (f (self s))).
Definition upd_os (f : OS → OS) : M unit :=
  λ s, (Ok tt, mkState (f (os s)) (self s)).

(** [raise e] when the world says the call fails. *)
Definition may_raise (o : option exn) : M unit :=
  match o with Some e => raise e | None => ret tt end.
Definition lift {A} (r : result A) : M A :=
  match r with Ok a => ret a | Raise e => raise e end.

(** Reading an attribute that may not have been assigned yet. *)
Definition attr {A} (name : string) (f : Plugin → option A) : M A :=
  p ← get_self;
  match f p with Some a => ret a | None => raise (AttributeError name) end.

(** [try: m except OperationFailure: pass] *)
Definition ignore_OperationFailure (m : M unit) : M unit :=
  λ s, match m s with
       | (Raise e, s') => if is_OperationFailure e then (Ok tt, s') else (Raise e, s')
       | r => r
       end.

Fixpoint for_each {A} (l : list A) (body : A → M unit) : M unit :=
  match l with
  | [] => ret tt
  | x :: l' => body x ;; for_each l' body
  end.

(** * random.sample

    [random.sample(population, k)] of the Python 2 standard library, in the
    branch it takes for a population no larger than its [setsize] threshold
    (85 for k = 10, so the 36 characters of the plugin's alphabet go this way):
<<
    n = len(population)
    if not 0 <= k <= n: raise ValueError("sample larger than population")
    result = [None] * k
    pool = list(population)
    for i in xrange(k):
        j = _int(random() * (n-i))
        result[i] = pool[j]
        pool[j] = pool[n-i-1]
    return result
>>
    The random source is a stream [draws] of naturals, one per call of
    [random()]; [_int(random() * m)] can be any index below [m] and is read off
    the draw modulo [m]. *)

Definition randbelow (r m : nat) : nat := r mod m.

Section sample.
Context {A : Type}.

(** The loop, with [m = n - i] live positions left in the pool. *)
Fixpoint sample_loop (draws : nat → nat) (pool : list A) (m k : nat)
    : option (list A) :=
  match k with
  | 0 => Some []
  | S k' =>
      let j := randbelow (draws 0) m in
      x ← pool !! j;
      y ← pool !! (m - 1);
      rest ← sample_loop (draws ∘ S) (<[j:=y]> pool) (m - 1) k';
      Some (x :: rest)
  end.

Definition sample (draws : nat → nat) (population : list A) (k : nat)
    : option (list A) :=
  let n := length population in
  if decide (k ≤ n) then sample_loop draws population n k else None.

(** Every result of the loop, one per choice of the indices [j]. *)
Fixpoint all_samples (pool : list A) (m k : nat) : list (list A) :=
  match k with
  | 0 => [[]]
  | S k' =>
      j ← seq 0 m;
      match pool !! j, pool !! (m - 1) with
      | Some x, Some y => (x ::.) <$> all_samples (<[j:=y]> pool) (m - 1) k'
      | _, _ => []
      end
  end.

End sample.

(** The falling factorial m (m-1) ... (m-k+1), on [nat] and on [N]. *)
Fixpoint falling_nat (m k : nat) : nat :=
  match k with
  | 0 => 1
  | S k' => m * falling_nat (m - 1) k'
  end.

Fixpoint falling (m : N) (k : nat) : N :=
  match k with
  | 0 => 1%N
  | S k' => (m * falling (m - 1) k')%N
  end.


(** * The module-level helpers *)

Section plugin.
Variable W : World.

(** [os.path.exists] *)
Definition path_exists (p : string) : M bool :=
  o ← get_os; ret (bool_decide (p ∈ files o)).

(** [scan_path(executable)]: the first directory of PATH that holds the
    executable, or None when the loop falls off its end. *)
Fixpoint scan_dirs (dirs : list string) (executable : string)
    : M (option string) :=
  match dirs with
  | [] => ret None
  | p :: dirs' =>
      let p := abspath W p in
      let executable_path := path_join p executable in
      ex ← path_exists executable_path;
      if ex : bool then ret (Some executable_path) else scan_dirs dirs' executable
  end.

Definition scan_path (executable : string) : M (option string) :=
  o ← get_os;
  scan_dirs (split_colon (default "" (environ o !! "PATH"))) executable.

(** [get_open_port(host)] *)
Definition get_open_port : M Z := lift (bind_port W).

(** ** Library calls, as state transformers *)

(** [try: fh = open(path, "w"); fh.close()
     except Exception, e: raise AssertionError("Invalid log path %r" % e)] *)
Definition touch (path : string) : M unit :=
  match open_raises W path with
  | None => upd_os (set_files (λ fs, {[path]} ∪ fs))
  | Some e => raise (AssertionError ("Invalid log path " +:+ exn_name e))
  end.

Definition mkdtemp : M string :=
  d ← lift (mkdtemp_name W);
  upd_os (set_files (λ fs, {[d]} ∪ fs));;
  ret d.

Definition mkdir (path : string) : M unit :=
  upd_os (set_files (λ fs, {[path]} ∪ fs)).

Definition subprocess_Popen (argv : list string) (out err : stdio) : M Popen :=
  child ← lift (popen_pid W);
  upd_os (set_procs (λ ps, <[child:=Running]> ps));;
  ret (mkPopen child argv out err).

Definition setenv (key value : string) : M unit :=
  upd_os (set_environ (λ env, <[key:=value]> env)).

(** [del os.environ[key]] *)
Definition delenv (key : string) : M unit :=
  o ← get_os;
  match environ o !! key with
  | Some _ => upd_os (set_environ (λ env, delete key env))
  | None => raise (KeyError key)
  end.

Definition sleep : M unit := may_raise (sleep_raises W).

(** mongoengine's [connect]: registers an open connection on success. *)
Definition connect (name host : string) (port : Z) : M unit :=
  may_raise (connect_raises W);;
  upd_os (set_conns (λ cs, {[fresh cs]} ∪ cs)).

(** [Popen.kill] and [Popen.terminate] differ only in the signal sent. *)
Definition send_signal (p : Popen) : M unit :=
  may_raise (signal_raises W);;
  upd_os (set_procs (λ ps, <[pid p:=Signalled]> ps)).
Definition kill := send_signal.
Definition terminate := send_signal.

Definition wait (p : Popen) : M unit :=
  may_raise (wait_raises W);;
  upd_os (set_procs (λ ps, <[pid p:=Reaped]> ps)).

Definition rmtree (path : string) : M unit :=
  may_raise (rmtree_raises W);;
  o ← get_os;
  if bool_decide (path ∈ files o)
  then upd_os (set_files (λ fs, fs ∖ {[path]}))
  else raise OSError.

(** pymongo: [Connection(host, port)], returning the new connection. *)
Definition Connection (host : string) (port : option Z) : M nat :=
  may_raise (Connection_raises W);;
  o ← get_os;
  let c := fresh (conns o) in
  upd_os (set_conns (λ cs, {[c]} ∪ cs));;
  ret c.

(** [Database(c, name)]: the handle is the database's name. *)
Definition Database (c : nat) (name : option string) : M string :=
  match name with Some n => ret n | None => raise TypeError end.

Definition collection_names (d : string) : M (list string) :=
  may_raise (collection_names_raises W);;
  o ← get_os;
  ret (default [] (dbs o !! d)).

Definition drop_collection (d col : string) : M unit :=
  may_raise (drop_collection_raises W col);;
  upd_os (set_dbs (λ m, alter (filter (λ c, c ≠ col)) d m)).

Definition close (c : nat) : M unit :=
  upd_os (set_conns (λ cs, cs ∖ {[c]})).

(** [self.process.name()] *)
Definition process_method (name : string) (method : Popen → M unit) : M unit :=
  child ← attr name process; method child.

(** ** MongoEnginePlugin *)

Definition ascii_uppercase : string := "ABCDEFGHIJKLMNOPQRSTUVWXYZ".
Definition digits : string := "0123456789".
Definition char_set : string := ascii_uppercase +:+ digits.

(** [''.join(random.sample(char_set, 10))] *)
Definition generate_database_name (draws : nat → nat) : result string :=
  match sample draws (String.list_ascii_of_string char_set) 10 with
  | Some cs => Ok (String.string_of_list_ascii cs)
  | None => Raise ValueError
  end.

Definition no_mongod_message : string :=
  "Mongodb plugin enabled, but no mongod on path, please specify path to binary".

Definition configure (options : Opt.t) : M unit :=
  if negb (Opt.mongoengine options) || truthy (Opt.mongodb_bin options)
  then ret tt
  else
    (if negb (truthy (Opt.mongodb_bin options)) then
       found ← scan_path "mongod";
       upd_self (set_mongodb_bin found);;
       match found : option string with
       | None => raise (AssertionError no_mongod_message)
       | Some _ => ret tt
       end
     else
       let bin := abspath W (expanduser W (expandvars W
                    (default "" (Opt.mongodb_bin options)))) in
       upd_self (set_mongodb_bin (Some bin));;
       ex ← path_exists bin;
       if ex : bool then ret tt
       else raise (AssertionError ("Invalid mongodb binary " +:+ repr bin)));;
    upd_self (set__enabled true);;
    upd_self (set_enabled true);;
    let log := expandvars W (expanduser W (Opt.mongodb_logpath options)) in
    upd_self (set_db_log_path (Some log));;
    touch log;;
    port ← (if Z.eqb (Opt.mongodb_port options) 0%Z then get_open_port
            else ret (Opt.mongodb_port options));
    upd_self (set_db_port (Some port));;
    upd_self (set_db_prealloc (Some (Opt.mongodb_prealloc options)));;
    upd_self (set_db_scripting (Some (Opt.mongodb_scripting options)));;
    upd_self (set_clear_after_module
                (Some (Opt.mongoengine_clear_after_module options)));;
    upd_self (set_clear_after_class
                (Some (Opt.mongoengine_clear_after_class options)));;
    name ← lift (generate_database_name (rnd W));
    upd_self (set_mongo_database (Some name));;
    dir ← mkdtemp;
    upd_self (set_db_path (Some dir));;
    ex ← path_exists dir;
    (if ex : bool then ret tt else mkdir dir);;
    me ← get_self;
    let argv :=
      ([default "" (mongodb_bin me); "--dbpath"; dir; "--port";
        pretty (port : Z);
        "--quiet"; "--nohttpinterface"; "--nounixsocket"; "--smallfiles";
        "--nojournal"; "--logpath"; log; "-vvvvvvvvvvv"]
       ++ (if Opt.mongodb_prealloc options then [] else ["--noprealloc"])
       ++ (if Opt.mongodb_scripting options then [] else ["--noscripting"])
      )%list in
    child ← subprocess_Popen argv PIPE STDOUT;
    upd_self (set_process (Some child));;
    upd_self (set__running true);;
    setenv "TEST_MONGODB" ("localhost:" +:+ pretty port);;
    setenv "TEST_MONGODB_DATABASE" name;;
    sleep;;
    connect name "localhost" port.

(** The body shared by the two branches of [stopContext]. *)
Definition drop_collections : M unit :=
  me ← get_self;
  c ← Connection "localhost" (db_port me);
  d ← Database c (mongo_database me);
  cols ← collection_names d;
  for_each cols (λ col, ignore_OperationFailure (drop_collection d col));;
  close c.

Definition stopContext (ctx : context) : M unit :=
  by_module ← attr "clear_after_module" clear_after_module;
  (if (by_module : bool) && ismodule ctx then drop_collections else ret tt);;
  by_class ← attr "clear_after_class" clear_after_class;
  (if (by_class : bool) && isclass ctx then drop_collections else ret tt).

Definition finalize : M unit :=
  me ← get_self;
  if negb (_running me) then ret tt
  else
    delenv "TEST_MONGODB";;
    delenv "TEST_MONGODB_DATABASE";;
    (if String.eqb (platform W) "darwin" then process_method "kill" kill
     else process_method "terminate" terminate);;
    process_method "wait" wait;;
    match db_path me with
    | Some dir => rmtree dir
    | None => raise TypeError
    end;;
    upd_self (set__running false).
End plugin.

(** * The database name *)

Definition chars (name : string) : list ascii := String.list_ascii_of_string name.

(** Uppercase ASCII letter or decimal digit, by code point. *)
Definition is_upper_or_digit (c : ascii) : bool :=
  let n := nat_of_ascii c in
  (65 <=? n) && (n <=? 90) || (48 <=? n) && (n <=? 57).

(** Every name the generator can return, one entry per sequence of draws
    that the selection loop distinguishes. *)
Definition all_names : list string :=
  String.string_of_list_ascii <$> all_samples (chars char_set) 36 10.

Definition producible (name : string) : Prop :=
  ∃ draws, generate_database_name draws = Ok name.

(** What [configure] leaves behind when it stops before the server process
    has been spawned. *)
Definition not_started (W : World) (o : OS) (st' : State) : Prop :=
  process (self st') = None ∧ _running (self st') = false
  ∧ environ (os st') = environ o ∧ procs (os st') = procs o
  ∧ conns (os st') = conns o
  ∧ ∀ name, mongo_database (self st') = Some name →
            generate_database_name (rnd W) = Ok name.

(** What it leaves behind once [subprocess.Popen] has returned. *)
Definition started (W : World) (options : Opt.t) (o : OS) (r : result unit)
    (st' : State) : Prop :=
  ∃ bin port name dir child,
    let log := expandvars W (expanduser W (Opt.mongodb_logpath options)) in
    self st' =
        mkPlugin (Some bin) (Some port) (Some dir) (Some child) true true
          (Some name) true (Some log)
          (Some (Opt.mongodb_prealloc options))
          (Some (Opt.mongodb_scripting options))
          (Some (Opt.mongoengine_clear_after_module options))
          (Some (Opt.mongoengine_clear_after_class options))
    ∧ generate_database_name (rnd W) = Ok name
    ∧ popen_pid W = Ok (pid child)
    ∧ stdout child = PIPE ∧ stderr child = STDOUT
    ∧ "--quiet" ∈ args child ∧ "--logpath" ∈ args child ∧ log ∈ args child
    ∧ environ (os st') =
        <["TEST_MONGODB_DATABASE":=name]>
          (<["TEST_MONGODB":="localhost:" +:+ pretty port]> (environ o))
    ∧ files (os st') = {[dir]} ∪ ({[log]} ∪ files o)
    ∧ procs (os st') = <[pid child:=Running]> (procs o)
    ∧ (r = Ok tt
       ∨ ∃ e, r = Raise e ∧ conns (os st') = conns o
              ∧ (sleep_raises W = Some e
                 ∨ sleep_raises W = None ∧ connect_raises W = Some e)).


(** * The published connection info *)

Definition TEST_MONGODB : string := "TEST_MONGODB".
Definition TEST_MONGODB_DATABASE : string := "TEST_MONGODB_DATABASE".

Definition published (o : OS) : Prop :=
  is_Some (environ o !! TEST_MONGODB)
  ∧ is_Some (environ o !! TEST_MONGODB_DATABASE).

Definition unpublished (o : OS) : Prop :=
  environ o !! TEST_MONGODB = None
  ∧ environ o !! TEST_MONGODB_DATABASE = None.

(** * Properties the specification asks for, in its own words *)

(** "If any step after process spawn fails, the partially-started process and
    directory must still be cleaned up before the error propagates." *)
Definition failed_start_is_cleaned_up (W : World) (options : Opt.t) (o : OS)
    : Prop :=
  ∀ e st' child dir,
    configure W options (mkState o init) = (Raise e, st') →
    process (self st') = Some child →
    db_path (self st') = Some dir →
    procs (os st') !! pid child ≠ Some Running ∧ (dir ∉ files (os st')).

(** "continuing teardown even if an earlier teardown step reports an error":
    however [finalize] ends on a running instance, the data directory is gone
    and the running flag is cleared. *)
Definition teardown_is_best_effort (W : World) (st : State) : Prop :=
  ∀ r st' dir,
    _running (self st) = true →
    db_path (self st) = Some dir →
    finalize W st = (r, st') →
    (dir ∉ files (os st')) ∧ _running (self st') = false.

(** The parent keeps the read end of a pipe to the child. *)
Definition holds_pipe (p : Popen) : bool :=
  match stdout p, stderr p with
  | PIPE, _ | _, PIPE => true
  | _, _ => false
  end.

(** "standard output and error streams merged and discarded": the child's
    stderr follows its stdout and no pipe to the child is left with the parent. *)
Definition launched_without_pipe (W : World) (options : Opt.t) (o : OS) : Prop :=
  ∀ r st' child,
    configure W options (mkState o init) = (r, st') →
    process (self st') = Some child →
    stderr child = STDOUT ∧ holds_pipe child = false.

(** "absent otherwise", for a start that fails partway. *)
Definition unpublished_after_failed_start (W : World) (options : Opt.t) (o : OS)
    : Prop :=
  ∀ e st',
    configure W options (mkState o init) = (Raise e, st') →
    unpublished (os st').

(** The generator can produce at least [n] pairwise different names. *)
Definition name_space_at_least (n : N) : Prop :=
  ∃ names : list string,
    NoDup names
    ∧ (∀ name, name ∈ names → producible name)
    ∧ (n ≤ N.of_nat (length names))%N.

(** "The connection used for cleanup must be closed before returning, on every
    path": the set of open connections is the same before and after. *)
Definition cleanup_connection_closed (W : World) (ctx : context) (st : State)
    : Prop :=
  ∀ r st', stopContext W ctx st = (r, st') → conns (os st') = conns (os st).

(** What the specification asks of a database name, and what sampling
    without replacement adds to it. *)
Definition well_formed_name (name : string) : Prop :=
  name ≠ "" ∧ String.length name = 10
  ∧ Forall (λ c, is_upper_or_digit c = true ∧ c ∈ chars char_set) (chars name).

Definition distinct_characters (name : string) : Prop :=
  length (chars name) = 10 ∧ NoDup (chars name).

(** * Concrete worlds and runs *)

(** A machine on which every call succeeds; dropping a [system.] collection is
    refused with OperationFailure. *)
Definition calm : World :=
  mkWorld id id id (λ _, None) (Ok 27018%Z) (λ i, 7 * i + 3)
    (Ok "/tmp/tmpXq3v9k") (Ok 4242)
    None None "linux2" None None None None None
    (λ col, if String.prefix "system." col then Some OperationFailure else None).

(** The server never accepts the initial connection. *)
Definition unreachable_server : World :=
  mkWorld id id id (λ _, None) (Ok 27018%Z) (λ i, 7 * i + 3)
    (Ok "/tmp/tmpXq3v9k") (Ok 4242)
    None (Some ConnectionFailure) "linux2" None None None None None (λ _, None).

(** Signalling the server process fails (it is already gone). *)
Definition stale_process : World :=
  mkWorld id id id (λ _, None) (Ok 27018%Z) (λ i, 7 * i + 3)
    (Ok "/tmp/tmpXq3v9k") (Ok 4242)
    None None "linux2" (Some OSError) None None None None (λ _, None).

(** Listing the collections fails with an error that is not swallowed. *)
Definition listing_fails : World :=
  mkWorld id id id (λ _, None) (Ok 27018%Z) (λ i, 7 * i + 3)
    (Ok "/tmp/tmpXq3v9k") (Ok 4242)
    None None "linux2" None None None None (Some ConnectionFailure) (λ _, None).

Definition host : OS :=
  mkOS {["PATH" := "/usr/local/bin:/usr/bin"]} {["/usr/bin/mongod"]} ∅ ∅ ∅.

(** [nosetests --mongoengine] *)
Definition enabled_options : Opt.t :=
  Opt.mk true None false false 0%Z false "/dev/null" false.

(** [nosetests --mongoengine --mongoengine-clear-after-module] *)
Definition cleaning_options : Opt.t :=
  Opt.mk true None true false 0%Z false "/dev/null" false.

(** [nosetests --mongoengine --mongoengine-mongodb-bin=/usr/bin/mongod] *)
Definition explicit_bin_options : Opt.t :=
  Opt.mk true (Some "/usr/bin/mongod") false false 0%Z false "/dev/null" false.

(** The state after a successful [configure] on [host]. *)
Definition live : State :=
  snd (configure calm enabled_options (mkState host init)).

Definition live_cleaning : State :=
  snd (configure calm cleaning_options (mkState host init)).

(** The state after [configure] failed in the initial connection. *)
Definition half_started : State :=
  snd (configure unreachable_server enabled_options (mkState host init)).

(** [live_cleaning] with three collections in the run's database. *)
Definition seeded : State :=
  mkState
    (set_dbs (λ m, <[default "" (mongo_database (self live_cleaning))
                     := ["a"; "b"; "system.indexes"]]> m)
       (os live_cleaning))
    (self live_cleaning).
(** * The methods, exit by exit

    [configure] and [finalize] once more in direct style: one case per place
    where the method can return or raise, with the result and the state it
    leaves there.  They are shown equal to the monadic definitions above and
    serve to read properties of the methods off their exits. *)

(** [":".join(parts)] *)
Fixpoint join_colon (parts : list string) : string :=
  match parts with
  | [] => ""
  | [p] => p
  | p :: rest => p +:+ ":" +:+ join_colon rest
  end.

(** The paths [scan_path] tries, in the order it tries them. *)
Definition candidates (W : World) (o : OS) (executable : string) : list string :=
  (λ p, path_join (abspath W p) executable)
    <$> split_colon (default "" (environ o !! "PATH")).

Definition first_existing (W : World) (o : OS) (executable : string)
    : option string :=
  head (filter (λ p, p ∈ files o) (candidates W o executable)).

Definition log_path (W : World) (options : Opt.t) : string :=
  expandvars W (expanduser W (Opt.mongodb_logpath options)).

(** The port of the run: the one given, or the one [get_open_port] returns. *)
Definition chosen_port (W : World) (options : Opt.t) : result Z :=
  if (Opt.mongodb_port options =? 0)%Z then bind_port W
  else Ok (Opt.mongodb_port options).

(** The argument vector handed to [subprocess.Popen]. *)
Definition server_argv (bin dir : string) (port : Z) (log : string)
    (prealloc scripting : bool) : list string :=
  ([bin; "--dbpath"; dir; "--port"; pretty port;
    "--quiet"; "--nohttpinterface"; "--nounixsocket"; "--smallfiles";
    "--nojournal"; "--logpath"; log; "-vvvvvvvvvvv"]
   ++ (if prealloc then [] else ["--noprealloc"])
   ++ (if scripting then [] else ["--noscripting"]))%list.

(** The plugin object once the options have been stored (the attributes
    assigned up to the database name). *)
Definition configured (options : Opt.t) (bin log : string) (port : Z)
    (name : option string) (dir : option string) (child : option Popen)
    (running : bool) : Plugin :=
  mkPlugin (Some bin) (Some port) dir child running true name true (Some log)
    (Some (Opt.mongodb_prealloc options))
    (Some (Opt.mongodb_scripting options))
    (Some (Opt.mongoengine_clear_after_module options))
    (Some (Opt.mongoengine_clear_after_class options)).

Definition configure_exits (W : World) (options : Opt.t) (o : OS)
    : result unit * State :=
  if negb (Opt.mongoengine options) || truthy (Opt.mongodb_bin options)
  then (Ok tt, mkState o init)
  else
    match first_existing W o "mongod" with
    | None =>
        (Raise (AssertionError no_mongod_message),
         mkState o (set_mongodb_bin None init))
    | Some bin =>
    let log := log_path W options in
    let enabled_plugin :=
      mkPlugin (Some bin) None None None false true None true (Some log)
        None None None None in
    match open_raises W log with
    | Some e =>
        (Raise (AssertionError ("Invalid log path " +:+ exn_name e)),
         mkState o enabled_plugin)
    | None =>
    let o1 := mkOS (environ o) ({[log]} ∪ files o) (procs o) (conns o) (dbs o) in
    match chosen_port W options with
    | Raise e => (Raise e, mkState o1 enabled_plugin)
    | Ok port =>
    match generate_database_name (rnd W) with
    | Raise e =>
        (Raise e, mkState o1 (configured options bin log port None None None false))
    | Ok name =>
    match mkdtemp_name W with
    | Raise e =>
        (Raise e,
         mkState o1 (configured options bin log port (Some name) None None false))
    | Ok dir =>
    let o2 :=
      mkOS (environ o) ({[dir]} ∪ ({[log]} ∪ files o)) (procs o) (conns o)
        (dbs o) in
    match popen_pid W with
    | Raise e =>
        (Raise e,
         mkState o2
           (configured options bin log port (Some name) (Some dir) None false))
    | Ok child_pid =>
    let child :=
      mkPopen child_pid
        (server_argv bin dir port log (Opt.mongodb_prealloc options)
           (Opt.mongodb_scripting options))
        PIPE STDOUT in
    let me :=
      configured options bin log port (Some name) (Some dir) (Some child) true in
    let o3 :=
      mkOS (<["TEST_MONGODB_DATABASE":=name]>
              (<["TEST_MONGODB":="localhost:" +:+ pretty port]> (environ o)))
        ({[dir]} ∪ ({[log]} ∪ files o))
        (<[child_pid:=Running]> (procs o)) (conns o) (dbs o) in
    match sleep_raises W with
    | Some e => (Raise e, mkState o3 me)
    | None =>
    match connect_raises W with
    | Some e => (Raise e, mkState o3 me)
    | None => (Ok tt, mkState (set_conns (λ cs, {[fresh cs]} ∪ cs) o3) me)
    end end end end end end end end.

Definition finalize_exits (W : World) (st : State) : result unit * State :=
  if negb (_running (self st)) then (Ok tt, st)
  else
    let o := os st in
    match environ o !! "TEST_MONGODB" with
    | None => (Raise (KeyError "TEST_MONGODB"), st)
    | Some _ =>
    let o1 := set_environ (delete "TEST_MONGODB") o in
    match environ o !! "TEST_MONGODB_DATABASE" with
    | None => (Raise (KeyError "TEST_MONGODB_DATABASE"), mkState o1 (self st))
    | Some _ =>
    let o2 := set_environ (delete "TEST_MONGODB_DATABASE") o1 in
    match process (self st) with
    | None =>
        (Raise (AttributeError
                  (if String.eqb (platform W) "darwin" then "kill"
                   else "terminate")),
         mkState o2 (self st))
    | Some child =>
    match signal_raises W with
    | Some e => (Raise e, mkState o2 (self st))
    | None =>
    let o3 := set_procs (<[pid child:=Signalled]>) o2 in
    match wait_raises W with
    | Some e => (Raise e, mkState o3 (self st))
    | None =>
    let o4 := set_procs (<[pid child:=Reaped]>) o3 in
    match db_path (self st) with
    | None => (Raise TypeError, mkState o4 (self st))
    | Some dir =>
    match rmtree_raises W with
    | Some e => (Raise e, mkState o4 (self st))
    | None =>
        if bool_decide (dir ∈ files o)
        then (Ok tt,
              mkState (set_files (λ fs, fs ∖ {[dir]}) o4)
                (set__running false (self st)))
        else (Raise OSError, mkState o4 (self st))
    end end end end end end end.

(** What cleanup leaves of a list of collections: those whose drop the server
    refuses. *)
Definition refused (W : World) (cols : list string) : list string :=
  filter (λ col, is_Some (drop_collection_raises W col)) cols.

(** A machine without a PATH: an empty environment and a mongod in the
    working directory. *)
Definition bare : OS := mkOS ∅ {["mongod"]} ∅ ∅ ∅.

(** No mongod anywhere on the search path. *)
Definition no_server : OS :=
  mkOS {["PATH" := "/usr/local/bin:/usr/bin"]} {["/usr/bin/python"]} ∅ ∅ ∅.

(** The log file cannot be opened for writing. *)
Definition read_only : World :=
  mkWorld id id id (λ _, Some IOError) (Ok 27018%Z) (λ i, 7 * i + 3)
    (Ok "/tmp/tmpXq3v9k") (Ok 4242)
    None None "linux2" None None None None None (λ _, None).

(** The server binary cannot be executed. *)
Definition not_executable : World :=
  mkWorld id id id (λ _, None) (Ok 27018%Z) (λ i, 7 * i + 3)
    (Ok "/tmp/tmpXq3v9k") (Raise OSError)
    None None "linux2" None None None None None (λ _, None).

(** [nosetests --mongoengine --mongoengine-mongodb-port=27500
      --mongoengine-mongodb-prealloc] *)
Definition fixed_port_options : Opt.t :=
  Opt.mk true None false false 27500%Z false "/dev/null" true.

(** [s'] differs from [s] at most in the open connections, which can only
    have grown, and in collections missing from the database named [d]. *)
Definition only_dropped (d : option string) (s s' : State) : Prop :=
  self s' = self s
  ∧ environ (os s') = environ (os s)
  ∧ files (os s') = files (os s)
  ∧ procs (os s') = procs (os s)
  ∧ conns (os s) ⊆ conns (os s')
  ∧ ∀ d', dbs (os s') !! d' = dbs (os s) !! d'
          ∨ (d = Some d'
             ∧ ∃ cur cur', dbs (os s) !! d' = Some cur
                           ∧ dbs (os s') !! d' = Some cur'
                           ∧ cur' `sublist_of` cur).

(** The server refuses to drop system collections with OperationFailure and
    breaks down on the collection "broken". *)
Definition breaking : World :=
  mkWorld id id id (λ _, None) (Ok 27018%Z) (λ i, 7 * i + 3)
    (Ok "/tmp/tmpXq3v9k") (Ok 4242)
    None None "linux2" None None None None None
    (λ col, if String.prefix "system." col then Some OperationFailure
            else if String.eqb col "broken" then Some ConnectionFailure
            else None).

(** [live_cleaning] with five collections in the run's database. *)
Definition crowded : State :=
  mkState
    (set_dbs (λ m, <[default "" (mongo_database (self live_cleaning))
                     := ["a"; "system.indexes"; "broken"; "b"; "a"]]> m)
       (os live_cleaning))
    (self live_cleaning).
(** * Facts about random.sample *)

Section sample_facts.
Context {A : Type}.
Implicit Types (pool out : list A) (draws : nat → nat).

Lemma randbelow_lt r m : 0 < m → randbelow r m < m.
Proof. intros. unfold randbelow. apply Nat.mod_upper_bound. lia. Qed.

Lemma randbelow_small r m : r < m → randbelow r m = r.
Proof. intros. unfold randbelow. by apply Nat.mod_small. Qed.

(** One round of the selection loop removes the chosen element from the
    live prefix of the pool. *)
Lemma pool_step_perm pool m j x y :
  j < m → pool !! j = Some x → pool !! (m - 1) = Some y →
  x :: take (m - 1) (<[j:=y]> pool) ≡ₚ take m pool.
Proof.
  intros Hj. destruct m as [|m]; [lia|].
  replace (S m - 1) with m by lia. intros Hx Hy.
  rewrite (take_S_r _ _ y) by done.
  destruct (decide (j = m)) as [->|Hne].
  - rewrite take_insert_ge by lia.
    assert (x = y) by congruence. subst y.
    by rewrite Permutation_cons_append.
  - rewrite take_insert_lt by lia.
    assert (Hl : take m pool !! j = Some x).
    { rewrite lookup_take_lt by lia. done. }
    revert Hl. generalize (take m pool). intros l Hl.
    rewrite <- (take_drop_middle l j x Hl) at 2.
    rewrite insert_take_drop by (by eapply lookup_lt_Some).
    solve_Permutation.
Qed.

Lemma sample_loop_spec draws pool m k :
  k ≤ m → m ≤ length pool →
  ∃ out, sample_loop draws pool m k = Some out
         ∧ length out = k ∧ out ⊆+ take m pool.
Proof.
  revert draws pool m. induction k as [|k IH]; intros draws pool m Hk Hm.
  - exists []. split_and!; [done..|]. apply submseteq_nil_l.
  - simpl. set (j := randbelow (draws 0) m).
    assert (Hj : j < m) by (apply randbelow_lt; lia).
    destruct (lookup_lt_is_Some_2 pool j) as [x Hx]; [lia|].
    destruct (lookup_lt_is_Some_2 pool (m - 1)) as [y Hy]; [lia|].
    rewrite Hx, Hy. simpl.
    destruct (IH (draws ∘ S) (<[j:=y]> pool) (m - 1)) as (rest & -> & Hlen & Hsub).
    { lia. } { rewrite length_insert. lia. }
    exists (x :: rest). simpl. split_and!; [done|by rewrite Hlen|].
    rewrite <- (pool_step_perm pool m j x y) by done.
    by apply submseteq_skip.
Qed.

Lemma sample_spec draws population k :
  k ≤ length population →
  ∃ out, sample draws population k = Some out
         ∧ length out = k ∧ out ⊆+ population.
Proof.
  intros Hk. unfold sample. rewrite decide_True by done.
  destruct (sample_loop_spec draws population (length population) k)
    as (out & ? & ? & Hsub); [done..|].
  exists out. by rewrite firstn_all in Hsub.
Qed.

Lemma all_samples_S pool m k :
  all_samples pool m (S k) =
  j ← seq 0 m;
  match pool !! j, pool !! (m - 1) with
  | Some x, Some y => (x ::.) <$> all_samples (<[j:=y]> pool) (m - 1) k
  | _, _ => []
  end.
Proof. done. Qed.

Lemma sample_loop_S draws pool m k :
  sample_loop draws pool m (S k) =
  x ← pool !! randbelow (draws 0) m;
  y ← pool !! (m - 1);
  rest ← sample_loop (draws ∘ S) (<[randbelow (draws 0) m:=y]> pool) (m - 1) k;
  Some (x :: rest).
Proof. done. Qed.

Lemma sample_loop_enumerated draws pool m k out :
  k ≤ m → sample_loop draws pool m k = Some out → out ∈ all_samples pool m k.
Proof.
  revert draws pool m out. induction k as [|k IH]; intros draws pool m out Hk.
  - simpl. intros [= <-]. apply list_elem_of_here.
  - rewrite sample_loop_S, all_samples_S.
    set (j := randbelow (draws 0) m). intros Hs.
    destruct (pool !! j) as [x|] eqn:Hx; [|done].
    destruct (pool !! (m - 1)) as [y|] eqn:Hy; [|done]. simpl in Hs.
    destruct (sample_loop _ _ _ _) as [rest|] eqn:Hrest; [|done].
    simpl in Hs. injection Hs as <-.
    apply list_elem_of_bind. exists j. split.
    + rewrite Hx. apply list_elem_of_fmap. exists rest. split; [done|].
      eapply IH; [|done]. lia.
    + apply elem_of_seq. split; [lia|]. simpl. apply randbelow_lt. lia.
Qed.

Lemma all_samples_reachable pool m k out :
  out ∈ all_samples pool m k → ∃ draws, sample_loop draws pool m k = Some out.
Proof.
  revert pool m out. induction k as [|k IH]; intros pool m out.
  - simpl. intros ->%list_elem_of_singleton. by exists (λ _, 0).
  - rewrite all_samples_S.
    intros (j & Hin & Hj%elem_of_seq)%list_elem_of_bind.
    destruct (pool !! j) as [x|] eqn:Hx; [|by apply not_elem_of_nil in Hin].
    destruct (pool !! (m - 1)) as [y|] eqn:Hy;
      [|by apply not_elem_of_nil in Hin].
    apply list_elem_of_fmap in Hin as (rest & -> & Hrest).
    destruct (IH _ _ _ Hrest) as [draws' Hrnd].
    exists (λ i, match i with 0 => j | S i' => draws' i' end).
    rewrite sample_loop_S.
    rewrite randbelow_small by lia. rewrite Hx, Hy. simpl.
    change (_ ∘ S) with draws' at 1.
    by rewrite Hrnd.
Qed.

Lemma all_samples_submseteq pool m k out :
  k ≤ m → m ≤ length pool →
  out ∈ all_samples pool m k → out ⊆+ take m pool.
Proof.
  intros Hk Hm [draws Hrnd]%all_samples_reachable.
  destruct (sample_loop_spec draws pool m k) as (out' & ? & _ & ?); [done..|].
  congruence.
Qed.

Lemma all_samples_NoDup pool m k :
  k ≤ m → m ≤ length pool → NoDup (take m pool) →
  NoDup (all_samples pool m k).
Proof.
  revert pool m. induction k as [|k IH]; intros pool m Hk Hm Hnd.
  - simpl. apply NoDup_singleton.
  - rewrite all_samples_S.
    assert (Hy : is_Some (pool !! (m - 1))) by (apply lookup_lt_is_Some_2; lia).
    destruct Hy as [y Hy]. rewrite Hy.
    apply NoDup_bind; [| |apply NoDup_seq].
    + intros j1 j2 out Hj1%elem_of_seq Hj2%elem_of_seq.
      destruct (lookup_lt_is_Some_2 pool j1) as [x1 Hx1]; [lia|].
      destruct (lookup_lt_is_Some_2 pool j2) as [x2 Hx2]; [lia|].
      rewrite Hx1, Hx2.
      intros (r1 & -> & _)%list_elem_of_fmap (r2 & [= <- _] & _)%list_elem_of_fmap.
      eapply NoDup_lookup; [exact Hnd| |].
      * rewrite lookup_take_lt by lia. done.
      * rewrite lookup_take_lt by lia. done.
    + intros j Hj%elem_of_seq.
      destruct (lookup_lt_is_Some_2 pool j) as [x Hx]; [lia|].
      rewrite Hx. apply (NoDup_fmap_2 _).
      apply IH; [lia|rewrite length_insert; lia|].
      eapply NoDup_cons_1_2.
      rewrite (pool_step_perm pool m j x y); [done|lia|done..].
Qed.

Lemma length_bind_const {B C} (f : B → list C) (l : list B) c :
  (∀ x, x ∈ l → length (f x) = c) → length (l ≫= f) = length l * c.
Proof.
  induction l as [|x l IH]; intros Hf; [done|].
  rewrite bind_cons, length_app, Hf, IH; [simpl; lia| |left].
  intros. apply Hf. by right.
Qed.

Lemma all_samples_length pool m k :
  k ≤ m → m ≤ length pool →
  length (all_samples pool m k) = falling_nat m k.
Proof.
  revert pool m. induction k as [|k IH]; intros pool m Hk Hm; [done|].
  rewrite all_samples_S.
  destruct (lookup_lt_is_Some_2 pool (m - 1)) as [y Hy]; [lia|]. rewrite Hy.
  rewrite (length_bind_const _ _ (falling_nat (m - 1) k)).
  - by rewrite length_seq.
  - intros j Hj%elem_of_seq.
    destruct (lookup_lt_is_Some_2 pool j) as [x Hx]; [lia|]. rewrite Hx.
    rewrite length_fmap. apply IH; [lia|]. rewrite length_insert. lia.
Qed.

Lemma falling_nat_N m k : N.of_nat (falling_nat m k) = falling (N.of_nat m) k.
Proof.
  revert m. induction k as [|k IH]; intros m; [done|].
  cbn [falling_nat falling].
  rewrite Nat2N.inj_mul, IH, Nat2N.inj_sub. done.
Qed.
End sample_facts.

Lemma chars_char_set_length : length (chars char_set) = 36.
Proof. reflexivity. Qed.

Lemma chars_char_set_NoDup : NoDup (chars char_set).
Proof. apply (bool_decide_unpack _). vm_compute. exact I. Qed.

Lemma chars_char_set_alphabet : Forall (λ c, is_upper_or_digit c = true) (chars char_set).
Proof. apply (bool_decide_unpack _). vm_compute. exact I. Qed.

Lemma generate_database_name_spec draws :
  ∃ cs, generate_database_name draws = Ok (String.string_of_list_ascii cs)
        ∧ sample draws (chars char_set) 10 = Some cs
        ∧ length cs = 10 ∧ cs ⊆+ chars char_set.
Proof.
  destruct (sample_spec draws (chars char_set) 10) as (cs & Hs & Hlen & Hsub).
  { rewrite chars_char_set_length. lia. }
  exists cs. unfold generate_database_name. fold (chars char_set).
  rewrite Hs. auto.
Qed.

Lemma producible_all_names name : name ∈ all_names ↔ producible name.
Proof.
  unfold all_names, producible. rewrite list_elem_of_fmap. split.
  - intros (cs & -> & Hcs). apply all_samples_reachable in Hcs as [draws Hd].
    exists draws. unfold generate_database_name, sample. fold (chars char_set).
    rewrite chars_char_set_length, decide_True by lia. by rewrite Hd.
  - intros [draws Hd].
    destruct (generate_database_name_spec draws) as (cs & Hg & Hs & _).
    rewrite Hg in Hd. injection Hd as <-. exists cs. split; [reflexivity|].
    unfold sample in Hs. rewrite chars_char_set_length in Hs.
    rewrite decide_True in Hs by lia.
    eapply sample_loop_enumerated; [|exact Hs]. lia.
Qed.

Lemma all_names_NoDup : NoDup all_names.
Proof.
  unfold all_names. apply NoDup_fmap_2.
  - intros l1 l2 Heq.
    rewrite <- (String.list_ascii_of_string_of_list_ascii l1),
            <- (String.list_ascii_of_string_of_list_ascii l2).
    by f_equal.
  - apply all_samples_NoDup.
    + lia.
    + rewrite chars_char_set_length. lia.
    + rewrite <- chars_char_set_length, firstn_all. apply chars_char_set_NoDup.
Qed.

Lemma all_names_count : N.of_nat (length all_names) = 922393263052800%N.
Proof.
  unfold all_names.
  rewrite length_fmap, all_samples_length, falling_nat_N.
  - vm_compute. reflexivity.
  - lia.
  - rewrite chars_char_set_length. lia.
Qed.

(** * Running the plugin's methods *)

Ltac mrun :=
  cbv beta iota delta
    [mbind M_bind bind mret M_ret ret raise upd_self upd_os get_self get_os
     may_raise lift attr process_method path_exists touch mkdtemp mkdir
     subprocess_Popen setenv delenv sleep connect send_signal kill terminate
     wait rmtree Connection Database collection_names drop_collection close
     get_open_port] in *;
  cbn [os self environ files procs conns dbs
       set_environ set_files set_procs set_conns set_dbs
       init set_mongodb_bin set_db_port set_db_path set_process set__running
       set__enabled set_mongo_database set_enabled set_db_log_path
       set_db_prealloc set_db_scripting set_clear_after_module
       set_clear_after_class
       mongodb_bin db_port db_path process _running _enabled mongo_database
       enabled db_log_path db_prealloc db_scripting clear_after_module
       clear_after_class pid args stdout stderr] in *.

Ltac in_list :=
  repeat first [apply list_elem_of_here | apply list_elem_of_further].

Ltac stopped_early :=
  intros [= <- <-]; left; unfold not_started; mrun;
  repeat split; try done; intros ? [= <-]; done.

Lemma bind_run {A B} (m : M A) (k : A → M B) s :
  (m ≫= k) s = match m s with
               | (Ok a, s') => k a s'
               | (Raise e, s') => (Raise e, s')
               end.
Proof. reflexivity. Qed.

Lemma scan_dirs_run W dirs exe s :
  ∃ found, scan_dirs W dirs exe s = (Ok found, s)
           ∧ ∀ p, found = Some p → p ∈ files (os s).
Proof.
  induction dirs as [|d dirs IH]; cbn [scan_dirs].
  - exists None. split; [done|]. intros ? [=].
  - rewrite bind_run. mrun.
    destruct (bool_decide _) eqn:Hex; [|done].
    eexists. split; [done|]. intros ? [= <-]. by apply bool_decide_eq_true in Hex.
Qed.

Lemma scan_path_run W exe s :
  ∃ found, scan_path W exe s = (Ok found, s)
           ∧ ∀ p, found = Some p → p ∈ files (os s).
Proof. unfold scan_path. rewrite bind_run. mrun. apply scan_dirs_run. Qed.

Lemma configure_cases W options o r st' :
  configure W options (mkState o init) = (r, st') →
  not_started W o st' ∨ started W options o r st'.
Proof.
  unfold configure.
  destruct (negb (Opt.mongoengine options) || truthy (Opt.mongodb_bin options))
    eqn:Hgate; [stopped_early|].
  apply orb_false_elim in Hgate as [_ Hbin]. rewrite Hbin. cbn [negb].
  rewrite bind_run. rewrite bind_run.
  destruct (scan_path_run W "mongod" (mkState o init)) as (found & -> & _).
  destruct (generate_database_name_spec (rnd W)) as (cs & Hname & _).
  mrun. rewrite Hname.
  destruct found as [bin|]; [|stopped_early].
  destruct (open_raises W _); mrun; [stopped_early|].
  mrun.
  set (chosen := if (Opt.mongodb_port options =? 0)%Z then _ else _).
  assert (Hport : ∀ s, (∃ port, chosen s = (Ok port, s))
                       ∨ (∃ e, chosen s = (Raise e, s))).
  { intros s. subst chosen. destruct (Z.eqb _ _); [|by eauto].
    destruct (bind_port W); eauto. }
  match goal with
  | |- context [chosen ?s] => destruct (Hport s) as [[port ->]|[e ->]]
  end; [|stopped_early].
  clear Hport chosen. mrun.
  destruct (mkdtemp_name W) as [dir|e]; mrun; [|stopped_early].
  rewrite bool_decide_eq_true_2 by (apply elem_of_union_l, elem_of_singleton; done).
  mrun.
  destruct (popen_pid W) as [child|e] eqn:Hpopen; mrun; [|stopped_early].
  destruct (sleep_raises W) as [e|] eqn:Hsleep; mrun.
  { intros [= <- <-]. right. eexists bin, port, _, dir, (mkPopen child _ _ _).
    mrun. split_and!; try done; [in_list..|].
    right. exists e. split_and!; [done..|]. by left. }
  destruct (connect_raises W) as [e|] eqn:Hconn; mrun.
  { intros [= <- <-]. right. eexists bin, port, _, dir, (mkPopen child _ _ _).
    mrun. split_and!; try done; [in_list..|].
    right. exists e. split_and!; [done..|]. by right. }
  intros [= <- <-]. right. eexists bin, port, _, dir, (mkPopen child _ _ _).
  mrun. split_and!; try done; [in_list..|]. by left.
Qed.

(** ** finalize *)

Lemma finalize_not_running W st :
  _running (self st) = false → finalize W st = (Ok tt, st).
Proof. intros Hr. unfold finalize. mrun. by rewrite Hr. Qed.

(** Every way [finalize] can end on a running instance. *)
Lemma finalize_cases W st r st' :
  _running (self st) = true →
  finalize W st = (r, st') →
  (∃ e, r = Raise e ∧ self st' = self st ∧ files (os st') = files (os st)
        ∧ procs (os st') = procs (os st)
        ∧ (environ (os st) !! "TEST_MONGODB" = None
           ∧ environ (os st') = environ (os st)
           ∨ environ (os st) !! "TEST_MONGODB_DATABASE" = None
             ∧ environ (os st') = delete "TEST_MONGODB" (environ (os st))
           ∨ process (self st) = None
             ∧ environ (os st') =
                 delete "TEST_MONGODB_DATABASE"
                   (delete "TEST_MONGODB" (environ (os st)))))
  ∨ (∃ child,
       process (self st) = Some child
       ∧ environ (os st') =
           delete "TEST_MONGODB_DATABASE" (delete "TEST_MONGODB" (environ (os st)))
       ∧ ((∃ e, r = Raise e ∧ signal_raises W = Some e
                ∧ self st' = self st ∧ files (os st') = files (os st)
                ∧ procs (os st') = procs (os st))
          ∨ (∃ e, r = Raise e ∧ signal_raises W = None ∧ wait_raises W = Some e
                  ∧ self st' = self st ∧ files (os st') = files (os st)
                  ∧ procs (os st') = <[pid child:=Signalled]> (procs (os st)))
          ∨ (∃ e, r = Raise e ∧ signal_raises W = None ∧ wait_raises W = None
                  ∧ self st' = self st ∧ files (os st') = files (os st)
                  ∧ procs (os st') =
                      <[pid child:=Reaped]> (<[pid child:=Signalled]> (procs (os st))))
          ∨ (∃ dir, r = Ok tt ∧ db_path (self st) = Some dir
                    ∧ self st' = set__running false (self st)
                    ∧ files (os st') = files (os st) ∖ {[dir]}
                    ∧ procs (os st') =
                        <[pid child:=Reaped]> (<[pid child:=Signalled]> (procs (os st)))))).
Proof.
  intros Hr. unfold finalize.
  set (signal := if String.eqb (platform W) "darwin" then _ else _).
  assert (∃ name, signal = process_method name (send_signal W)) as [name ->].
  { subst signal. destruct (String.eqb _ _); eauto. }
  mrun. rewrite Hr. cbn [negb]. mrun.
  destruct (environ (os st) !! "TEST_MONGODB") as [v1|] eqn:Hk1; mrun;
    [|intros [= <- <-]; left; eexists; split_and!; eauto 10].
  rewrite lookup_delete_ne by done.
  destruct (environ (os st) !! "TEST_MONGODB_DATABASE") as [v2|] eqn:Hk2; mrun;
    [|intros [= <- <-]; left; eexists; split_and!; eauto 10].
  destruct (process (self st)) as [child|] eqn:Hp; mrun;
    [|intros [= <- <-]; left; eexists; split_and!; eauto 10].
  intros Hfin. right. exists child. split; [done|]. revert Hfin.
  destruct (signal_raises W) as [e|] eqn:Hsignal; mrun.
  { intros [= <- <-]. mrun. split; [done|]. left. by exists e. }
  rewrite Hp. mrun.
  destruct (wait_raises W) as [e|] eqn:Hwait; mrun.
  { intros [= <- <-]. mrun. split; [done|]. right. left. by exists e. }
  destruct (db_path (self st)) as [dir|] eqn:Hdir; mrun.
  2:{ intros [= <- <-]. mrun. split; [done|]. right. right. left.
      by exists TypeError. }
  destruct (rmtree_raises W) as [e|] eqn:Hrm; mrun.
  { intros [= <- <-]. mrun. split; [done|]. right. right. left. by exists e. }
  destruct (bool_decide (dir ∈ files (os st))) eqn:Hex; mrun.
  2:{ intros [= <- <-]. mrun. split; [done|]. right. right. left.
      by exists OSError. }
  intros [= <- <-]. mrun. split; [done|]. right. right. right. by exists dir.
Qed.

Lemma finalize_ok_not_running W st st' :
  finalize W st = (Ok tt, st') → _running (self st') = false.
Proof.
  destruct (_running (self st)) eqn:Hr.
  - intros Hfin.
    destruct (finalize_cases W st _ _ Hr Hfin) as [(e & ? & _)|(child & _ & _ & H)];
      [done|].
    destruct H as [(e & ? & _)|[(e & ? & _)|[(e & ? & _)|(dir & _ & _ & -> & _)]]];
      try done.
    by destruct (self st).
  - rewrite finalize_not_running by done. by intros [= <-].
Qed.

(** ** stopContext *)

Lemma difference_union_fresh (cs : gset nat) :
  ({[fresh cs]} ∪ cs) ∖ {[fresh cs]} = cs.
Proof.
  apply set_eq. intros c.
  rewrite elem_of_difference, elem_of_union, !elem_of_singleton. split.
  - intros [[?|?] ?]; done.
  - intros Hc. split; [by right|]. intros ->. by apply (is_fresh cs).
Qed.

(** The drop loop touches neither the set of open connections nor the plugin
    object, however it ends. *)
Lemma drop_loop_frame W d cols s r s' :
  for_each cols (λ col, ignore_OperationFailure (drop_collection W d col)) s
    = (r, s') →
  conns (os s') = conns (os s) ∧ self s' = self s.
Proof.
  revert s. induction cols as [|col cols IH]; intros s; cbn [for_each].
  - by intros [= <- <-].
  - rewrite bind_run. unfold ignore_OperationFailure at 1. mrun.
    destruct (drop_collection_raises W col) as [e|]; mrun.
    + destruct (is_OperationFailure e).
      * intros Hrest. by apply IH in Hrest.
      * by intros [= <- <-].
    + intros Hrest. by apply IH in Hrest.
Qed.

(** It raises only what a drop raised that was not an OperationFailure. *)
Lemma drop_loop_raises W d cols s e s' :
  for_each cols (λ col, ignore_OperationFailure (drop_collection W d col)) s
    = (Raise e, s') →
  is_OperationFailure e = false
  ∧ ∃ col, drop_collection_raises W col = Some e.
Proof.
  revert s. induction cols as [|col cols IH]; intros s; cbn [for_each].
  - by intros [= <- <-].
  - rewrite bind_run. unfold ignore_OperationFailure at 1. mrun.
    destruct (drop_collection_raises W col) as [e'|] eqn:Hdrop; mrun.
    + destruct (is_OperationFailure e') eqn:Hop.
      * apply IH.
      * intros [= <- <-]. eauto.
    + apply IH.
Qed.

Lemma drop_collections_cases W s r s' :
  drop_collections W s = (r, s') →
  self s' = self s
  ∧ ((∃ e, r = Raise e ∧ Connection_raises W = Some e
           ∧ conns (os s') = conns (os s))
     ∨ (Connection_raises W = None ∧ r = Ok tt ∧ conns (os s') = conns (os s))
     ∨ (Connection_raises W = None ∧ (∃ e, r = Raise e)
        ∧ conns (os s') = {[fresh (conns (os s))]} ∪ conns (os s))).
Proof.
  unfold drop_collections. mrun.
  destruct (Connection_raises W) as [e|]; mrun.
  { intros [= <- <-]. split; [done|]. left. by exists e. }
  destruct (mongo_database (self s)) as [d|]; mrun.
  2:{ intros [= <- <-]. split; [done|]. right. right. eauto. }
  destruct (collection_names_raises W) as [e|]; mrun.
  { intros [= <- <-]. split; [done|]. right. right. eauto. }
  match goal with
  | |- context [for_each ?cols ?body ?s0] =>
      destruct (for_each cols body s0) as [[[]|e] s1] eqn:Hloop
  end; apply drop_loop_frame in Hloop as [Hconns Hself]; mrun.
  - intros [= <- <-]. mrun. split; [done|]. right. left.
    split_and!; [done..|]. rewrite Hconns.
    apply difference_union_fresh.
  - intros [= <- <-]. split; [done|]. right. right. eauto.
Qed.

Lemma stopContext_cases W ctx st r st' :
  stopContext W ctx st = (r, st') →
  (r = Ok tt → conns (os st') = conns (os st))
  ∧ (∀ e, r = Raise e →
          is_Some (clear_after_module (self st)) →
          is_Some (clear_after_class (self st)) →
          Connection_raises W = None →
          conns (os st') = {[fresh (conns (os st))]} ∪ conns (os st)).
Proof.
  unfold stopContext. mrun.
  destruct (clear_after_module (self st)) as [by_module|] eqn:Hm; mrun.
  2:{ intros [= <- <-]. split; [done|]. by intros ? _ [? [=]]. }
  destruct (by_module && ismodule ctx) eqn:Hbm.
  - assert (isclass ctx = false) as Hnc.
    { destruct ctx; try done. by rewrite andb_false_r in Hbm. }
    destruct (drop_collections W st) as [r1 s1] eqn:Hdrop.
    apply drop_collections_cases in Hdrop as (Hself & Hdrop).
    destruct r1 as [[]|e]; mrun.
    + rewrite Hself. destruct (clear_after_class (self st)) as [by_class|]; mrun.
      2:{ intros [= <- <-]. split; [done|]. by intros ? _ _ [? [=]]. }
      rewrite Hnc, andb_false_r. intros [= <- <-].
      split; [|done]. intros _.
      destruct Hdrop as [(? & ? & _)|[(_ & _ & ?)|(_ & [? ?] & _)]]; done.
    + intros [= <- <-]. split; [done|]. intros ? _ _ _ Hc.
      destruct Hdrop as [(? & _ & ? & _)|[(_ & ? & _)|(_ & _ & ?)]];
        [congruence|done..].
  - mrun. destruct (clear_after_class (self st)) as [by_class|]; mrun.
    2:{ intros [= <- <-]. split; [done|]. by intros ? _ _ [? [=]]. }
    destruct (by_class && isclass ctx).
    + intros Hdrop. apply drop_collections_cases in Hdrop as (_ & Hdrop).
      split.
      * intros ->.
        destruct Hdrop as [(? & ? & _)|[(_ & _ & ?)|(_ & [? ?] & _)]]; done.
      * intros e -> _ _ Hc.
        destruct Hdrop as [(? & _ & ? & _)|[(_ & ? & _)|(_ & _ & ?)]];
          [congruence|done..].
    + by intros [= <- <-].
Qed.

(** * The model on concrete inputs *)

Example sample_three_of_six :
  sample (λ i, 7 * i + 3) (chars "ABCDEF") 3 = Some (chars "DAB").
Proof. reflexivity. Qed.

Example sample_all_of_six :
  sample (λ _, 0) (chars "ABCDEF") 6 = Some (chars "AFEDCB").
Proof. reflexivity. Qed.

Example sample_too_many : sample (λ _, 0) (chars "ABC") 4 = None.
Proof. reflexivity. Qed.

Example all_samples_two_of_three :
  String.string_of_list_ascii <$> all_samples (chars "ABC") 3 2
  = ["AC"; "AB"; "BA"; "BC"; "CA"; "CB"].
Proof. reflexivity. Qed.

Example database_name_run : generate_database_name (rnd calm) = Ok "DKRY5HPX9M".
Proof. vm_compute. reflexivity. Qed.

Example split_colon_run :
  split_colon "/usr/local/bin:/usr/bin" = ["/usr/local/bin"; "/usr/bin"]
  ∧ split_colon "" = [""] ∧ split_colon "a::b:" = ["a"; ""; "b"; ""].
Proof. repeat split. Qed.

(** A successful start: the server runs, its directory exists, the
    connection info is published. *)
Example start_run :
  fst (configure calm enabled_options (mkState host init)) = Ok tt
  ∧ mongodb_bin (self live) = Some "/usr/bin/mongod"
  ∧ mongo_database (self live) = Some "DKRY5HPX9M"
  ∧ procs (os live) !! 4242 = Some Running
  ∧ environ (os live) !! TEST_MONGODB = Some "localhost:27018"
  ∧ environ (os live) !! TEST_MONGODB_DATABASE = Some "DKRY5HPX9M"
  ∧ _running (self live) = true.
Proof. vm_compute. repeat split. Qed.

(** Start then stop: the process is reaped, the directory and the connection
    info are gone. *)
Example start_stop_run :
  let st := snd (finalize calm live) in
  fst (finalize calm live) = Ok tt
  ∧ procs (os st) !! 4242 = Some Reaped
  ∧ bool_decide ("/tmp/tmpXq3v9k" ∈ files (os st)) = false
  ∧ environ (os st) !! TEST_MONGODB = None
  ∧ environ (os st) !! TEST_MONGODB_DATABASE = None
  ∧ _running (self st) = false.
Proof. vm_compute. repeat split. Qed.

(** Module-scope cleanup of a database holding a, b and system.indexes. *)
Example cleanup_run :
  fst (stopContext calm ModuleContext seeded) = Ok tt
  ∧ dbs (os (snd (stopContext calm ModuleContext seeded))) !! "DKRY5HPX9M"
    = Some ["system.indexes"]
  ∧ stopContext calm ClassContext seeded = (Ok tt, seeded).
Proof. vm_compute. repeat split. Qed.

(** The run of [nosetests --mongoengine --mongoengine-mongodb-bin=...]. *)
Example explicit_binary_run :
  configure calm explicit_bin_options (mkState host init)
  = (Ok tt, mkState host init).
Proof. reflexivity. Qed.

(** * Theorems for the claims of the specification *)

Lemma configure_not_started_after_raise W options o e st' child :
  configure W options (mkState o init) = (Raise e, st') →
  process (self st') = Some child →
  started W options o (Raise e) st'.
Proof.
  intros Hrun Hchild. apply configure_cases in Hrun as [Hns|Hs]; [|done].
  destruct Hns as (Hnone & _). congruence.
Qed.

(** C1 (code defect).  With the plugin enabled and any non-empty explicit
    server-binary path, [configure] returns at its first guard and leaves the
    plugin and the machine exactly as they were: the path is never expanded or
    checked, the plugin is not enabled and no server is started. *)
Theorem configure_ignores_explicit_binary
    W st c path by_module by_class port scripting logpath prealloc :
  configure W
    (Opt.mk true (Some (String c path)) by_module by_class port scripting
       logpath prealloc) st
  = (Ok tt, st).
Proof. reflexivity. Qed.

(** C2, as stated, fails when the initial connection is refused: the server
    process is still running and its data directory still exists. *)
Lemma failed_start_not_cleaned_up :
  ¬ failed_start_is_cleaned_up unreachable_server enabled_options host.
Proof.
  intros Hclaim.
  destruct (Hclaim ConnectionFailure half_started
              (default (mkPopen 0 [] Inherited Inherited)
                 (process (self half_started)))
              "/tmp/tmpXq3v9k") as [Hproc _];
    [vm_compute; reflexivity..|].
  apply Hproc. vm_compute. reflexivity.
Qed.

(** C2 (amended).  When the server process has been spawned and the readiness
    wait or the initial connection raises, the error leaves [configure] with
    no cleanup done: the process is still running, the data directory still
    exists and the instance is marked running. *)
Theorem failed_start_leaves_process_and_directory W options o e st' child :
  configure W options (mkState o init) = (Raise e, st') →
  process (self st') = Some child →
  procs (os st') !! pid child = Some Running
  ∧ (∃ dir, db_path (self st') = Some dir ∧ dir ∈ files (os st'))
  ∧ _running (self st') = true
  ∧ (sleep_raises W = Some e ∨ connect_raises W = Some e).
Proof.
  intros Hrun Hchild.
  destruct (configure_not_started_after_raise _ _ _ _ _ _ Hrun Hchild)
    as (bin & port & name & dir & child' & Hself & _ & _ & _ & _ & _ & _ & _
        & _ & Hfiles & Hprocs & Hr).
  rewrite Hself in Hchild |- *. cbn in Hchild |- *. injection Hchild as ->.
  split_and!.
  - rewrite Hprocs. apply lookup_insert_eq.
  - exists dir. split; [done|]. rewrite Hfiles.
    apply elem_of_union_l, elem_of_singleton. done.
  - done.
  - destruct Hr as [[=]|(e' & [= <-] & _ & [?|[_ ?]])]; auto.
Qed.

Lemma failed_start_leaves_process_and_directory_witness :
  procs (os half_started) !! 4242 = Some Running
  ∧ (∃ dir, db_path (self half_started) = Some dir
            ∧ dir ∈ files (os half_started))
  ∧ _running (self half_started) = true
  ∧ (sleep_raises unreachable_server = Some ConnectionFailure
     ∨ connect_raises unreachable_server = Some ConnectionFailure).
Proof.
  apply (failed_start_leaves_process_and_directory
           unreachable_server enabled_options host ConnectionFailure
           half_started
           (mkPopen 4242
              ["/usr/bin/mongod"; "--dbpath"; "/tmp/tmpXq3v9k"; "--port";
               "27018"; "--quiet"; "--nohttpinterface"; "--nounixsocket";
               "--smallfiles"; "--nojournal"; "--logpath"; "/dev/null";
               "-vvvvvvvvvvv"; "--noprealloc"; "--noscripting"]
              PIPE STDOUT));
    vm_compute; reflexivity.
Defined.

(** C3, as stated, fails when signalling the server process raises: the data
    directory is still there afterwards and the running flag is still set. *)
Lemma teardown_aborts_on_error : ¬ teardown_is_best_effort stale_process live.
Proof.
  intros Hclaim.
  destruct (Hclaim (Raise OSError) (snd (finalize stale_process live))
              "/tmp/tmpXq3v9k") as [_ Hflag];
    [vm_compute; reflexivity..|].
  vm_compute in Hflag. discriminate Hflag.
Qed.

(** C3 (amended).  When a teardown step of [finalize] raises, the error
    propagates at once and the steps after it are skipped: the data directory
    is not removed and the running flag stays set; when the failing step is
    the signal, the process is not waited for either. *)
Theorem finalize_error_skips_remaining_teardown W st e st' :
  finalize W st = (Raise e, st') →
  _running (self st') = true
  ∧ files (os st') = files (os st)
  ∧ (signal_raises W = Some e → procs (os st') = procs (os st)).
Proof.
  intros Hfin. destruct (_running (self st)) eqn:Hr.
  2:{ rewrite finalize_not_running in Hfin by done. discriminate Hfin. }
  destruct (finalize_cases W st _ _ Hr Hfin)
    as [(e' & _ & -> & ? & ? & _)|(child & _ & _ & Hsteps)]; [done|].
  destruct Hsteps as [(e' & _ & _ & -> & ? & ?)
                     |[(e' & _ & Hs & _ & -> & ? & _)
                      |[(e' & _ & Hs & _ & -> & ? & _)|(dir & [=] & _)]]];
    split_and!; try done; intros ?; congruence.
Qed.

Lemma finalize_error_skips_remaining_teardown_witness :
  _running (self (snd (finalize stale_process live))) = true
  ∧ files (os (snd (finalize stale_process live))) = files (os live)
  ∧ (signal_raises stale_process = Some OSError →
     procs (os (snd (finalize stale_process live))) = procs (os live)).
Proof.
  apply (finalize_error_skips_remaining_teardown stale_process live OSError).
  vm_compute. reflexivity.
Defined.

(** C4, as stated, fails on every run that launches the server: its standard
    output is a pipe whose read end stays with the plugin. *)
Lemma server_launched_with_pipe :
  ¬ launched_without_pipe calm enabled_options host.
Proof.
  intros Hclaim.
  destruct (Hclaim (Ok tt) live
              (default (mkPopen 0 [] Inherited Inherited) (process (self live))))
    as [_ Hpipe]; [vm_compute; reflexivity..|].
  vm_compute in Hpipe. discriminate Hpipe.
Qed.

(** C4 (amended).  The server process is launched with its standard error
    merged into its standard output and the standard output connected to a
    pipe kept by the plugin; the output is not discarded.  The child is asked
    to be quiet and to log to the configured log path. *)
Theorem server_output_goes_to_a_pipe W options o r st' child :
  configure W options (mkState o init) = (r, st') →
  process (self st') = Some child →
  stdout child = PIPE ∧ stderr child = STDOUT ∧ holds_pipe child = true
  ∧ "--quiet" ∈ args child
  ∧ ∃ log, db_log_path (self st') = Some log
           ∧ "--logpath" ∈ args child ∧ log ∈ args child.
Proof.
  intros Hrun Hchild. apply configure_cases in Hrun as [(Hnone & _)|Hs];
    [congruence|].
  destruct Hs as (bin & port & name & dir & child' & Hself & _ & _ & Hout & Herr
                  & Hquiet & Hlogflag & Hlog & _).
  rewrite Hself in Hchild |- *. cbn in Hchild |- *. injection Hchild as ->.
  unfold holds_pipe. rewrite Hout, Herr. split_and!; try done. eauto.
Qed.

Lemma server_output_goes_to_a_pipe_witness :
  let child := default (mkPopen 0 [] Inherited Inherited) (process (self live)) in
  stdout child = PIPE ∧ stderr child = STDOUT ∧ holds_pipe child = true
  ∧ "--quiet" ∈ args child
  ∧ ∃ log, db_log_path (self live) = Some log
           ∧ "--logpath" ∈ args child ∧ log ∈ args child.
Proof.
  apply (server_output_goes_to_a_pipe calm enabled_options host (Ok tt) live);
    vm_compute; reflexivity.
Defined.

(** C5, as stated, fails for a start that fails in the initial connection:
    both entries are in the environment afterwards. *)
Lemma published_after_failed_start :
  ¬ unpublished_after_failed_start unreachable_server enabled_options host.
Proof.
  intros Hclaim.
  destruct (Hclaim ConnectionFailure half_started) as [Hkey _];
    [vm_compute; reflexivity|].
  vm_compute in Hkey. discriminate Hkey.
Qed.

(** C5 (amended).  Starting from an environment without the two entries,
    [configure] leaves them published exactly when it has spawned the server
    process (with the port and database name of the run), whether or not the
    readiness wait and the initial connection then succeed; [finalize] on a
    running instance with both entries retracts them before anything else,
    however it ends. *)
Theorem connection_info_published_while_running W :
  (∀ options o r st',
     unpublished o →
     configure W options (mkState o init) = (r, st') →
     if _running (self st')
     then ∃ port name,
            db_port (self st') = Some port
            ∧ mongo_database (self st') = Some name
            ∧ environ (os st') !! TEST_MONGODB = Some ("localhost:" +:+ pretty port)
            ∧ environ (os st') !! TEST_MONGODB_DATABASE = Some name
     else unpublished (os st'))
  ∧ (∀ st r st',
       _running (self st) = true →
       published (os st) →
       finalize W st = (r, st') →
       unpublished (os st')).
Proof.
  split.
  - intros options o r st' [Hk1 Hk2] Hrun.
    apply configure_cases in Hrun
      as [(_ & -> & Henv & _)
         |(bin & port & name & dir & child & Hself & _ & _ & _ & _ & _ & _ & _
           & Henv & _)].
    + unfold unpublished. by rewrite Henv.
    + rewrite Hself. cbn. exists port, name. rewrite Henv. split_and!; try done.
      * by rewrite lookup_insert_ne, lookup_insert_eq.
      * by rewrite lookup_insert_eq.
  - intros st r st' Hr [[v1 Hk1] [v2 Hk2]] Hfin.
    destruct (finalize_cases W st _ _ Hr Hfin)
      as [(e & _ & _ & _ & _ & [[H _]|[[H _]|[_ Henv]]])|(child & _ & Henv & _)].
    + unfold TEST_MONGODB in Hk1. congruence.
    + unfold TEST_MONGODB_DATABASE in Hk2. congruence.
    + unfold unpublished. rewrite Henv. split.
      * by rewrite lookup_delete_ne, lookup_delete_eq.
      * by rewrite lookup_delete_eq.
    + unfold unpublished. rewrite Henv. split.
      * by rewrite lookup_delete_ne, lookup_delete_eq.
      * by rewrite lookup_delete_eq.
Qed.

Lemma connection_info_published_while_running_witness :
  (if _running (self half_started)
   then ∃ port name,
          db_port (self half_started) = Some port
          ∧ mongo_database (self half_started) = Some name
          ∧ environ (os half_started) !! TEST_MONGODB
            = Some ("localhost:" +:+ pretty port)
          ∧ environ (os half_started) !! TEST_MONGODB_DATABASE = Some name
   else unpublished (os half_started))
  ∧ unpublished (os (snd (finalize calm live))).
Proof.
  split.
  - apply (proj1 (connection_info_published_while_running unreachable_server)
             enabled_options host (Raise ConnectionFailure) half_started).
    + split; vm_compute; reflexivity.
    + vm_compute. reflexivity.
  - apply (proj2 (connection_info_published_while_running calm)
             live (Ok tt) (snd (finalize calm live))).
    + vm_compute. reflexivity.
    + split; eexists; vm_compute; reflexivity.
    + vm_compute. reflexivity.
Defined.

(** ** The database name *)

Lemma length_string_of_list_ascii cs :
  String.length (String.string_of_list_ascii cs) = length cs.
Proof. induction cs as [|c cs IH]; [done|]. cbn. by rewrite IH. Qed.

Lemma submseteq_NoDup {A} (l k : list A) : l ⊆+ k → NoDup k → NoDup l.
Proof.
  intros [k' Hk]%submseteq_Permutation Hnd. rewrite Hk in Hnd.
  by apply NoDup_app in Hnd as [? _].
Qed.

Lemma generated_name_well_formed draws name :
  generate_database_name draws = Ok name → well_formed_name name.
Proof.
  intros Hgen.
  destruct (generate_database_name_spec draws) as (cs & Hcs & _ & Hlen & Hsub).
  rewrite Hcs in Hgen. injection Hgen as <-.
  unfold well_formed_name, chars.
  rewrite length_string_of_list_ascii,
    String.list_ascii_of_string_of_list_ascii, Hlen.
  split_and!; [|done|].
  - destruct cs; [done|]. discriminate.
  - apply Forall_forall. intros c Hc.
    assert (c ∈ chars char_set) as Hin by (by eapply elem_of_submseteq).
    split; [|done].
    by apply (proj1 (Forall_forall _ _) chars_char_set_alphabet).
Qed.

Lemma generated_name_distinct draws name :
  generate_database_name draws = Ok name → distinct_characters name.
Proof.
  intros Hgen.
  destruct (generate_database_name_spec draws) as (cs & Hcs & _ & Hlen & Hsub).
  rewrite Hcs in Hgen. injection Hgen as <-.
  unfold distinct_characters, chars.
  rewrite String.list_ascii_of_string_of_list_ascii. split; [done|].
  eapply submseteq_NoDup; [done|]. apply chars_char_set_NoDup.
Qed.

(** Whatever name [configure] stores came out of the generator. *)
Lemma configure_names_database W options o name :
  mongo_database (self (snd (configure W options (mkState o init)))) = Some name →
  generate_database_name (rnd W) = Ok name.
Proof.
  destruct (configure W options (mkState o init)) as [r st'] eqn:Hrun.
  cbn [snd]. intros Hname.
  apply configure_cases in Hrun as [(_ & _ & _ & _ & _ & Hgen)|Hs]; [by auto|].
  destruct Hs as (bin & port & name' & dir & child & Hself & Hgen & _).
  rewrite Hself in Hname. cbn in Hname. congruence.
Qed.

(** C9.  The generator always returns a name, and the name is non-empty, has
    length exactly 10 and consists of uppercase ASCII letters and digits of
    the alphabet; this holds for the name of every run. *)
Theorem database_name_well_formed :
  (∀ draws, ∃ name,
     generate_database_name draws = Ok name ∧ well_formed_name name)
  ∧ (∀ W options o,
       match mongo_database (self (snd (configure W options (mkState o init)))) with
       | Some name => well_formed_name name
       | None => True
       end).
Proof.
  split.
  - intros draws.
    destruct (generate_database_name_spec draws) as (cs & Hcs & _).
    eexists. split; [exact Hcs|]. by eapply generated_name_well_formed.
  - intros W options o.
    destruct (mongo_database _) as [name|] eqn:Hname; [|done].
    eapply generated_name_well_formed, configure_names_database, Hname.
Qed.

(** C10.  Every generated name consists of 10 pairwise different characters:
    the generator samples the alphabet without replacement. *)
Theorem database_name_characters_distinct :
  (∀ draws, ∃ name,
     generate_database_name draws = Ok name ∧ distinct_characters name)
  ∧ (∀ W options o,
       match mongo_database (self (snd (configure W options (mkState o init)))) with
       | Some name => distinct_characters name
       | None => True
       end).
Proof.
  split.
  - intros draws.
    destruct (generate_database_name_spec draws) as (cs & Hcs & _).
    eexists. split; [exact Hcs|]. by eapply generated_name_distinct.
  - intros W options o.
    destruct (mongo_database _) as [name|] eqn:Hname; [|done].
    eapply generated_name_distinct, configure_names_database, Hname.
Qed.

Lemma name_space_bound n :
  name_space_at_least n → (n ≤ 922393263052800)%N.
Proof.
  intros (names & Hnd & Hall & Hn).
  assert (length names ≤ length all_names) as Hle.
  { apply submseteq_length, NoDup_submseteq; [exact Hnd|].
    intros name Hin. apply producible_all_names, Hall, Hin. }
  rewrite <- all_names_count. lia.
Qed.

(** C6, as stated, fails: the generator cannot produce 36^10 different names. *)
Lemma name_space_below_36_pow_10 : ¬ name_space_at_least (36 ^ 10).
Proof.
  intros Hle%name_space_bound. revert Hle. apply N.lt_nge.
  vm_compute. reflexivity.
Qed.

(** C6 (amended).  The generator draws 10 different characters out of 36, so
    the number of distinct names it can produce is exactly
    36 * 35 * ... * 27 = 922393263052800, which is below 36^10. *)
Theorem name_space_is_falling_factorial :
  name_space_at_least 922393263052800
  ∧ ¬ name_space_at_least 922393263052801
  ∧ (922393263052800 = 36 * 35 * 34 * 33 * 32 * 31 * 30 * 29 * 28 * 27)%N
  ∧ (922393263052800 < 36 ^ 10)%N.
Proof.
  split_and!.
  - exists all_names. split; [exact all_names_NoDup|]. split.
    + intros name Hin. apply producible_all_names, Hin.
    + rewrite all_names_count. apply N.le_refl.
  - intros Hle%name_space_bound. revert Hle. apply N.lt_nge.
    vm_compute. reflexivity.
  - vm_compute. reflexivity.
  - vm_compute. reflexivity.
Qed.

(** C7.  [finalize] on an instance that is not running returns at once,
    raising nothing and changing nothing; in particular, after a [finalize]
    that returned, a second one does nothing. *)
Theorem finalize_idempotent W st :
  (_running (self st) = false → finalize W st = (Ok tt, st))
  ∧ (∀ st1, finalize W st = (Ok tt, st1) → finalize W st1 = (Ok tt, st1)).
Proof.
  split.
  - apply finalize_not_running.
  - intros st1 Hfin. eapply finalize_not_running, finalize_ok_not_running, Hfin.
Qed.

Lemma finalize_idempotent_witness :
  finalize calm (mkState host init) = (Ok tt, mkState host init)
  ∧ finalize calm (snd (finalize calm live)) = (Ok tt, snd (finalize calm live)).
Proof.
  split.
  - apply (proj1 (finalize_idempotent calm (mkState host init))). reflexivity.
  - apply (proj2 (finalize_idempotent calm live)). vm_compute. reflexivity.
Defined.

(** C8, as stated, fails when listing the collections raises: the cleanup
    connection is still open when [stopContext] hands the error to its caller. *)
Lemma cleanup_connection_left_open :
  ¬ cleanup_connection_closed listing_fails ModuleContext live_cleaning.
Proof.
  intros Hclaim.
  specialize (Hclaim (Raise ConnectionFailure)
                (snd (stopContext listing_fails ModuleContext live_cleaning))).
  assert (1 ∈ conns (os live_cleaning)) as Hin.
  { rewrite <- Hclaim by (vm_compute; reflexivity).
    apply (bool_decide_unpack _). vm_compute. exact I. }
  revert Hin. apply (bool_decide_unpack _). vm_compute. exact I.
Qed.

(** C8 (amended).  When [stopContext] returns normally, every cleanup
    connection it opened has been closed, also when drops were refused with
    OperationFailure.  When it raises after the connection was opened (the
    database handle, the listing or a drop failed with another error), the
    connection is still open on return. *)
Theorem cleanup_connection_closed_on_normal_return W ctx st r st' :
  stopContext W ctx st = (r, st') →
  match r with
  | Ok _ => conns (os st') = conns (os st)
  | Raise _ =>
      is_Some (clear_after_module (self st)) →
      is_Some (clear_after_class (self st)) →
      Connection_raises W = None →
      conns (os st') = {[fresh (conns (os st))]} ∪ conns (os st)
  end.
Proof.
  intros [Hok Hraise]%stopContext_cases.
  destruct r as [[]|e]; [by apply Hok|by apply (Hraise e)].
Qed.

Lemma cleanup_connection_closed_on_normal_return_witness :
  conns (os (snd (stopContext calm ModuleContext seeded))) = conns (os seeded)
  ∧ conns (os (snd (stopContext listing_fails ModuleContext live_cleaning)))
    = {[fresh (conns (os live_cleaning))]} ∪ conns (os live_cleaning).
Proof.
  split.
  - apply (cleanup_connection_closed_on_normal_return
             calm ModuleContext seeded (Ok tt)).
    vm_compute. reflexivity.
  - apply (cleanup_connection_closed_on_normal_return
             listing_fails ModuleContext live_cleaning (Raise ConnectionFailure)).
    + vm_compute. reflexivity.
    + eexists. vm_compute. reflexivity.
    + eexists. vm_compute. reflexivity.
    + reflexivity.
Defined.

(** * The methods and their exits *)

Lemma scan_dirs_first W dirs exe s :
  scan_dirs W dirs exe s
  = (Ok (head (filter (λ p, p ∈ files (os s))
                 ((λ p, path_join (abspath W p) exe) <$> dirs))), s).
Proof.
  induction dirs as [|d dirs IH]; cbn [scan_dirs]; [done|].
  rewrite bind_run. mrun. rewrite fmap_cons, filter_cons.
  destruct (decide (path_join (abspath W d) exe ∈ files (os s))) as [Hin|Hout].
  - by rewrite bool_decide_eq_true_2.
  - rewrite bool_decide_eq_false_2 by done. apply IH.
Qed.

Lemma scan_path_first W exe s :
  scan_path W exe s = (Ok (first_existing W (os s) exe), s).
Proof. unfold scan_path. rewrite bind_run. mrun. apply scan_dirs_first. Qed.

Lemma configure_by_exits W options o :
  configure W options (mkState o init) = configure_exits W options o.
Proof.
  unfold configure, configure_exits.
  destruct (negb (Opt.mongoengine options) || truthy (Opt.mongodb_bin options))
    eqn:Hgate; [done|].
  apply orb_false_elim in Hgate as [_ Hbin]. rewrite Hbin. cbn [negb].
  rewrite bind_run. rewrite bind_run. rewrite scan_path_first. cbn [os].
  unfold log_path, chosen_port, configured, server_argv.
  destruct (first_existing W o "mongod") as [bin|]; mrun; [|done].
  destruct (open_raises W _); mrun; [done|].
  destruct (Z.eqb _ _).
  - destruct (bind_port W) as [port|e]; mrun; [|done].
    destruct (generate_database_name (rnd W)) as [name|e]; mrun; [|done].
    destruct (mkdtemp_name W) as [dir|e]; mrun; [|done].
    rewrite bool_decide_eq_true_2
      by (apply elem_of_union_l, elem_of_singleton; done).
    mrun.
    destruct (popen_pid W) as [child|e]; mrun; [|done].
    destruct (sleep_raises W); mrun; [done|].
    destruct (connect_raises W); mrun; done.
  - mrun.
    destruct (generate_database_name (rnd W)) as [name|e]; mrun; [|done].
    destruct (mkdtemp_name W) as [dir|e]; mrun; [|done].
    rewrite bool_decide_eq_true_2
      by (apply elem_of_union_l, elem_of_singleton; done).
    mrun.
    destruct (popen_pid W) as [child|e]; mrun; [|done].
    destruct (sleep_raises W); mrun; [done|].
    destruct (connect_raises W); mrun; done.
Qed.

Lemma finalize_by_exits W st : finalize W st = finalize_exits W st.
Proof.
  unfold finalize, finalize_exits.
  destruct (String.eqb (platform W) "darwin"); mrun;
    (destruct (_running (self st)); cbn [negb]; [|done]; mrun;
     destruct (environ (os st) !! "TEST_MONGODB"); mrun; [|done];
     rewrite lookup_delete_ne by done;
     destruct (environ (os st) !! "TEST_MONGODB_DATABASE"); mrun; [|done];
     destruct (process (self st)) as [child|] eqn:Hp; mrun; [|done];
     destruct (signal_raises W); mrun; [done|];
     rewrite Hp; mrun;
     destruct (wait_raises W); mrun; [done|];
     destruct (db_path (self st)); mrun; [|done];
     destruct (rmtree_raises W); mrun; [done|];
     destruct (bool_decide _); done).
Qed.

(** * Further properties of the plugin's code *)

(** ** scan_path *)

(** X1.  [scan_path] never raises and changes nothing; it returns the first
    path, in PATH order, that exists, and None exactly when none of the paths
    it tries exists. *)
Theorem scan_path_returns_first_match W exe s :
  ∃ found,
    scan_path W exe s = (Ok found, s)
    ∧ match found with
      | Some p =>
          p ∈ files (os s)
          ∧ ∃ before after,
              candidates W (os s) exe = (before ++ p :: after)%list
              ∧ Forall (λ q, q ∉ files (os s)) before
      | None => Forall (λ q, q ∉ files (os s)) (candidates W (os s) exe)
      end.
Proof.
  exists (first_existing W (os s) exe). split; [apply scan_path_first|].
  unfold first_existing.
  destruct (head _) as [p|] eqn:Hhead.
  - split.
    + apply head_Some_elem_of, list_elem_of_filter in Hhead as [? _]. done.
    + apply head_filter_Some in Hhead as (before & after & ? & ?). eauto.
  - apply head_None in Hhead. apply Forall_forall. intros q Hq Hin.
    assert (q ∈ filter (λ p, p ∈ files (os s)) (candidates W (os s) exe)) as Hf
      by (by apply list_elem_of_filter).
    rewrite Hhead in Hf. by apply not_elem_of_nil in Hf.
Qed.

(** X2.  Without a PATH entry in the environment the search path is the
    single empty string, so [scan_path] looks for the executable in
    [abspath("")] only. *)
Theorem scan_path_without_PATH W exe s :
  environ (os s) !! "PATH" = None →
  scan_path W exe s
  = (Ok (if bool_decide (path_join (abspath W "") exe ∈ files (os s))
         then Some (path_join (abspath W "") exe) else None), s).
Proof.
  intros Hpath. rewrite scan_path_first. unfold first_existing, candidates.
  rewrite Hpath. cbn [default split_colon fmap list_fmap].
  rewrite filter_cons, filter_nil.
  destruct (decide _) as [Hin|Hout].
  - by rewrite bool_decide_eq_true_2.
  - by rewrite bool_decide_eq_false_2.
Qed.

Lemma scan_path_without_PATH_witness :
  let s := mkState bare init in
  scan_path calm "mongod" s
  = (Ok (if bool_decide (path_join (abspath calm "") "mongod" ∈ files (os s))
         then Some (path_join (abspath calm "") "mongod") else None), s).
Proof.
  intros s. apply (scan_path_without_PATH calm "mongod" s). reflexivity.
Defined.

(** ** Splitting the search path *)

Lemma split_colon_nonempty s : split_colon s ≠ [].
Proof.
  destruct s as [|c s]; cbn; [done|].
  destruct (Ascii.eqb c ":"); [done|]. by destruct (split_colon s).
Qed.

(** X3.  Splitting at colons loses nothing: the parts are never an empty
    list, none of them contains a colon, and joining them with colons gives
    the string back. *)
Theorem split_colon_join s :
  split_colon s ≠ []
  ∧ Forall (λ part, ":"%char ∉ chars part) (split_colon s)
  ∧ join_colon (split_colon s) = s.
Proof.
  split; [apply split_colon_nonempty|].
  induction s as [|c s [IHc IHj]]; cbn [split_colon].
  - split; [|done]. repeat constructor. apply not_elem_of_nil.
  - destruct (Ascii.eqb c ":") eqn:Hc.
    + apply Ascii.eqb_eq in Hc as ->. split.
      * constructor; [apply not_elem_of_nil|done].
      * pose proof (split_colon_nonempty s).
        destruct (split_colon s) as [|p ps] eqn:Hs; [done|].
        cbn [join_colon]. cbn. by rewrite <- IHj.
    + apply Ascii.eqb_neq in Hc.
      pose proof (split_colon_nonempty s).
      destruct (split_colon s) as [|p ps] eqn:Hs; [done|].
      apply Forall_cons in IHc as [Hp Hps]. split.
      * constructor; [|done]. unfold chars. cbn.
        intros [?|?]%elem_of_cons; [congruence|done].
      * rewrite <- IHj. by destruct ps.
Qed.

(** ** configure *)

(** X4.  With the plugin enabled, no explicit binary and no mongod on the
    search path, [configure] raises an AssertionError whose message starts
    with "Mongodb plugin enabled, but no mongod on path" and leaves the
    plugin object and the machine as they were: the plugin is not enabled
    and nothing has been created. *)
Theorem configure_without_mongod W options o :
  Opt.mongoengine options = true →
  truthy (Opt.mongodb_bin options) = false →
  Forall (λ q, q ∉ files o) (candidates W o "mongod") →
  ∃ msg,
    configure W options (mkState o init)
    = (Raise (AssertionError msg), mkState o init)
    ∧ String.prefix "Mongodb plugin enabled, but no mongod on path" msg = true.
Proof.
  intros Hon Hbin Hnone. rewrite configure_by_exits. unfold configure_exits.
  rewrite Hon, Hbin. cbn [negb orb].
  assert (first_existing W o "mongod" = None) as ->; [|by eexists].
  unfold first_existing. apply head_None.
  induction Hnone as [|q qs Hq _ IH]; [done|].
  by rewrite filter_cons_False.
Qed.

Lemma configure_without_mongod_witness :
  ∃ msg,
    configure calm enabled_options (mkState no_server init)
    = (Raise (AssertionError msg), mkState no_server init)
    ∧ String.prefix "Mongodb plugin enabled, but no mongod on path" msg = true.
Proof.
  apply (configure_without_mongod calm enabled_options no_server);
    [reflexivity..|].
  apply (bool_decide_unpack _). vm_compute. exact I.
Defined.

(** X5.  When the log path cannot be opened for writing, [configure] raises
    an AssertionError whose message starts with "Invalid log path " before
    it touches the machine: no port is bound, no directory created, no
    process spawned.  The plugin has
    already been marked enabled by then, and the cleanup flags have not been
    stored, so a [stopContext] on that object raises AttributeError. *)
Theorem configure_unwritable_log W options o bin e :
  Opt.mongoengine options = true →
  truthy (Opt.mongodb_bin options) = false →
  first_existing W o "mongod" = Some bin →
  open_raises W (log_path W options) = Some e →
  ∃ me shown,
    configure W options (mkState o init)
    = (Raise (AssertionError ("Invalid log path " +:+ shown)), mkState o me)
    ∧ enabled me = true ∧ _enabled me = true ∧ _running me = false
    ∧ process me = None ∧ db_path me = None
    ∧ ∀ W' ctx,
        stopContext W' ctx (mkState o me)
        = (Raise (AttributeError "clear_after_module"), mkState o me).
Proof.
  intros Hon Hbin Hfound Hopen. rewrite configure_by_exits.
  unfold configure_exits. rewrite Hon, Hbin, Hfound. cbn [negb orb].
  cbv zeta. rewrite Hopen. do 2 eexists. split; [reflexivity|].
  split_and!; try reflexivity.
Qed.

Lemma configure_unwritable_log_witness :
  ∃ me shown,
    configure read_only enabled_options (mkState host init)
    = (Raise (AssertionError ("Invalid log path " +:+ shown)), mkState host me)
    ∧ enabled me = true ∧ _enabled me = true ∧ _running me = false
    ∧ process me = None ∧ db_path me = None
    ∧ ∀ W' ctx,
        stopContext W' ctx (mkState host me)
        = (Raise (AttributeError "clear_after_module"), mkState host me).
Proof.
  apply (configure_unwritable_log read_only enabled_options host
           "/usr/bin/mongod" IOError); vm_compute; reflexivity.
Defined.

(** What [configure] left when the plugin holds a process handle. *)
Lemma configure_spawned W options o r st' child :
  configure W options (mkState o init) = (r, st') →
  process (self st') = Some child →
  ∃ bin port name dir,
    first_existing W o "mongod" = Some bin
    ∧ open_raises W (log_path W options) = None
    ∧ chosen_port W options = Ok port
    ∧ generate_database_name (rnd W) = Ok name
    ∧ mkdtemp_name W = Ok dir
    ∧ popen_pid W = Ok (pid child)
    ∧ child = mkPopen (pid child)
                (server_argv bin dir port (log_path W options)
                   (Opt.mongodb_prealloc options) (Opt.mongodb_scripting options))
                PIPE STDOUT
    ∧ self st' = configured options bin (log_path W options) port (Some name)
                   (Some dir) (Some child) true
    ∧ environ (os st') =
        <["TEST_MONGODB_DATABASE":=name]>
          (<["TEST_MONGODB":="localhost:" +:+ pretty port]> (environ o))
    ∧ files (os st') = {[dir]} ∪ ({[log_path W options]} ∪ files o)
    ∧ procs (os st') = <[pid child:=Running]> (procs o)
    ∧ dbs (os st') = dbs o.
Proof.
  rewrite configure_by_exits. unfold configure_exits.
  destruct (negb _ || _); [by intros [= <- <-]|].
  destruct (first_existing W o "mongod") as [bin|]; [|by intros [= <- <-]].
  cbv zeta.
  destruct (open_raises W _); [by intros [= <- <-]|].
  destruct (chosen_port W options) as [port|]; [|by intros [= <- <-]].
  destruct (generate_database_name _) as [name|]; [|by intros [= <- <-]].
  destruct (mkdtemp_name W) as [dir|]; [|by intros [= <- <-]].
  destruct (popen_pid W) as [child_pid|]; [|by intros [= <- <-]].
  destruct (sleep_raises W); [|destruct (connect_raises W)];
    intros [= <- <-] [= <-]; exists bin, port, name, dir; done.
Qed.

(** X6.  Whenever the server has been spawned, its argument vector is the
    binary found on the path, the data directory made by mkdtemp, the port of
    the run, the fixed flags in the order of the source, the log path, and
    then --noprealloc unless preallocation was asked for and --noscripting
    unless scripting was asked for. *)
Theorem server_argument_vector W options o r st' child :
  configure W options (mkState o init) = (r, st') →
  process (self st') = Some child →
  ∃ bin dir port log,
    mongodb_bin (self st') = Some bin ∧ db_path (self st') = Some dir
    ∧ db_port (self st') = Some port ∧ db_log_path (self st') = Some log
    ∧ args child =
        ([bin; "--dbpath"; dir; "--port"; pretty port; "--quiet";
          "--nohttpinterface"; "--nounixsocket"; "--smallfiles"; "--nojournal";
          "--logpath"; log; "-vvvvvvvvvvv"]
         ++ (if Opt.mongodb_prealloc options then [] else ["--noprealloc"])
         ++ (if Opt.mongodb_scripting options then [] else ["--noscripting"])
        )%list.
Proof.
  intros Hrun Hchild.
  destruct (configure_spawned _ _ _ _ _ _ Hrun Hchild)
    as (bin & port & name & dir & _ & _ & _ & _ & _ & _ & Hargs & Hself & _).
  exists bin, dir, port, (log_path W options). rewrite Hself, Hargs.
  split_and!; reflexivity.
Qed.

Lemma server_argument_vector_witness :
  let st' := snd (configure calm fixed_port_options (mkState host init)) in
  let child := default (mkPopen 0 [] Inherited Inherited) (process (self st')) in
  ∃ bin dir port log,
    mongodb_bin (self st') = Some bin ∧ db_path (self st') = Some dir
    ∧ db_port (self st') = Some port ∧ db_log_path (self st') = Some log
    ∧ args child =
        ([bin; "--dbpath"; dir; "--port"; pretty port; "--quiet";
          "--nohttpinterface"; "--nounixsocket"; "--smallfiles"; "--nojournal";
          "--logpath"; log; "-vvvvvvvvvvv"]
         ++ (if Opt.mongodb_prealloc fixed_port_options then []
             else ["--noprealloc"])
         ++ (if Opt.mongodb_scripting fixed_port_options then []
             else ["--noscripting"])
        )%list.
Proof.
  intros st' child.
  apply (server_argument_vector calm fixed_port_options host (Ok tt) st' child);
    vm_compute; reflexivity.
Defined.

(** X7.  The port of a started run is the one given on the command line when
    that is not 0, whatever [get_open_port] would answer, and the port
    [get_open_port] returned when it is 0; it is the port published in
    TEST_MONGODB. *)
Theorem port_of_the_run W options o r st' child :
  configure W options (mkState o init) = (r, st') →
  process (self st') = Some child →
  ∃ port,
    db_port (self st') = Some port
    ∧ (if (Opt.mongodb_port options =? 0)%Z then bind_port W = Ok port
       else port = Opt.mongodb_port options)
    ∧ environ (os st') !! "TEST_MONGODB" = Some ("localhost:" +:+ pretty port).
Proof.
  intros Hrun Hchild.
  destruct (configure_spawned _ _ _ _ _ _ Hrun Hchild)
    as (bin & port & name & dir & _ & _ & Hport & _ & _ & _ & _ & Hself & Henv & _).
  exists port. rewrite Hself, Henv. split_and!; [done| |].
  - unfold chosen_port in Hport. destruct (Z.eqb _ _); congruence.
  - by rewrite lookup_insert_ne, lookup_insert_eq.
Qed.

Lemma port_of_the_run_witness :
  let st' := snd (configure calm fixed_port_options (mkState host init)) in
  ∃ port,
    db_port (self st') = Some port
    ∧ (if (Opt.mongodb_port fixed_port_options =? 0)%Z
       then bind_port calm = Ok port
       else port = Opt.mongodb_port fixed_port_options)
    ∧ environ (os st') !! "TEST_MONGODB" = Some ("localhost:" +:+ pretty port).
Proof.
  intros st'.
  apply (port_of_the_run calm fixed_port_options host (Ok tt) st'
           (default (mkPopen 0 [] Inherited Inherited) (process (self st'))));
    vm_compute; reflexivity.
Defined.

(** X8.  However it ends, [configure] only adds to the machine: every path
    that existed still exists, every open connection is still open, the
    databases are untouched, environment entries other than the two it
    publishes keep their values, and no process entry changes except the one
    of the pid that Popen returned. *)
Theorem configure_only_adds W options o :
  let st' := snd (configure W options (mkState o init)) in
  files o ⊆ files (os st')
  ∧ conns o ⊆ conns (os st')
  ∧ dbs (os st') = dbs o
  ∧ (∀ key, key ≠ "TEST_MONGODB" → key ≠ "TEST_MONGODB_DATABASE" →
            environ (os st') !! key = environ o !! key)
  ∧ (∀ p, popen_pid W ≠ Ok p → procs (os st') !! p = procs o !! p).
Proof.
  cbv zeta. rewrite configure_by_exits. unfold configure_exits.
  destruct (negb _ || _); [done|].
  destruct (first_existing W o "mongod") as [bin|]; [|done].
  cbv zeta.
  destruct (open_raises W _); [done|].
  assert (∀ x y : string, files o ⊆ {[x]} ∪ ({[y]} ∪ files o)) as Hxy.
  { intros x y p Hp. by apply elem_of_union_r, elem_of_union_r. }
  assert (∀ y : string, files o ⊆ {[y]} ∪ files o) as Hy.
  { intros y p Hp. by apply elem_of_union_r. }
  destruct (chosen_port W options) as [port|];
    [|cbn [snd os files conns dbs environ procs]; split_and!; auto].
  destruct (generate_database_name _) as [name|];
    [|cbn [snd os files conns dbs environ procs]; split_and!; auto].
  destruct (mkdtemp_name W) as [dir|];
    [|cbn [snd os files conns dbs environ procs]; split_and!; auto].
  destruct (popen_pid W) as [child_pid|];
    [|cbn [snd os files conns dbs environ procs]; split_and!; auto].
  assert (∀ key, key ≠ "TEST_MONGODB" → key ≠ "TEST_MONGODB_DATABASE" →
            <["TEST_MONGODB_DATABASE":=name]>
              (<["TEST_MONGODB":="localhost:" +:+ pretty port]> (environ o))
            !! key = environ o !! key) as Henv.
  { intros key ??. by rewrite !lookup_insert_ne. }
  assert (∀ p, Ok child_pid ≠ Ok p →
            <[child_pid:=Running]> (procs o) !! p = procs o !! p) as Hprocs.
  { intros p Hp. apply lookup_insert_ne. congruence. }
  destruct (sleep_raises W); [|destruct (connect_raises W)];
    cbn [snd os files conns dbs environ procs set_conns];
    split_and!; auto.
  intros c Hc. by apply elem_of_union_r.
Qed.

(** X9.  When Popen raises, the error leaves [configure] with the data
    directory that mkdtemp created still on disk, nothing published and the
    instance not marked running; [finalize] on that object does nothing, so
    the plugin never removes the directory. *)
Theorem failed_spawn_leaves_directory W options o e st' dir :
  configure W options (mkState o init) = (Raise e, st') →
  db_path (self st') = Some dir →
  process (self st') = None →
  popen_pid W = Raise e
  ∧ dir ∈ files (os st')
  ∧ environ (os st') = environ o
  ∧ procs (os st') = procs o
  ∧ _running (self st') = false
  ∧ ∀ W', finalize W' st' = (Ok tt, st').
Proof.
  rewrite configure_by_exits. unfold configure_exits.
  destruct (negb _ || _); [by intros [= <- <-]|].
  destruct (first_existing W o "mongod") as [bin|]; [|by intros [= <- <-]].
  cbv zeta.
  destruct (open_raises W _); [by intros [= <- <-]|].
  destruct (chosen_port W options) as [port|]; [|by intros [= <- <-]].
  destruct (generate_database_name _) as [name|]; [|by intros [= <- <-]].
  destruct (mkdtemp_name W) as [dir'|]; [|by intros [= <- <-]].
  destruct (popen_pid W) as [child_pid|].
  { destruct (sleep_raises W); [|destruct (connect_raises W)];
      by intros [= <- <-]. }
  intros [= <- <-] [= <-] _.
  split_and!;
    first [ done
          | apply elem_of_union_l, elem_of_singleton; done
          | intros W'; by apply finalize_not_running ].
Qed.

Lemma failed_spawn_leaves_directory_witness :
  let st' := snd (configure not_executable enabled_options (mkState host init)) in
  popen_pid not_executable = Raise OSError
  ∧ "/tmp/tmpXq3v9k" ∈ files (os st')
  ∧ environ (os st') = environ host
  ∧ procs (os st') = procs host
  ∧ _running (self st') = false
  ∧ ∀ W', finalize W' st' = (Ok tt, st').
Proof.
  intros st'.
  apply (failed_spawn_leaves_directory not_executable enabled_options host
           OSError st' "/tmp/tmpXq3v9k"); vm_compute; reflexivity.
Defined.

(** ** configure followed by finalize *)

(** X10.  Once [configure] has spawned the server, whether it then returned
    or raised in the readiness wait or the initial connection, a [finalize]
    whose signal, wait and rmtree calls succeed returns normally, reaps the
    process, removes the data directory, retracts the published entries and
    clears the running flag. *)
Theorem finalize_after_start W W' options o r st1 child :
  configure W options (mkState o init) = (r, st1) →
  process (self st1) = Some child →
  signal_raises W' = None →
  wait_raises W' = None →
  rmtree_raises W' = None →
  ∃ st2 dir,
    finalize W' st1 = (Ok tt, st2)
    ∧ procs (os st2) !! pid child = Some Reaped
    ∧ db_path (self st1) = Some dir ∧ (dir ∉ files (os st2))
    ∧ unpublished (os st2)
    ∧ _running (self st2) = false.
Proof.
  intros Hrun Hchild Hsig Hwait Hrm.
  destruct (configure_spawned _ _ _ _ _ _ Hrun Hchild)
    as (bin & port & name & dir & _ & _ & _ & _ & _ & _ & _ & Hself & Henv
        & Hfiles & _).
  rewrite finalize_by_exits. unfold finalize_exits.
  rewrite Hself. cbn [configured _running process db_path negb]. cbv zeta.
  rewrite Henv, lookup_insert_ne, lookup_insert_eq by done.
  rewrite lookup_insert_eq, Hsig, Hwait, Hrm, Hfiles.
  rewrite bool_decide_eq_true_2
    by (apply elem_of_union_l, elem_of_singleton; done).
  eexists _, dir. split; [reflexivity|].
  unfold unpublished, TEST_MONGODB, TEST_MONGODB_DATABASE.
  cbn [os self procs files environ set_files set_procs set_environ
       set__running _running].
  split_and!; try done.
  - apply lookup_insert_eq.
  - rewrite elem_of_difference, elem_of_singleton. by intros [_ ?].
  - by rewrite lookup_delete_ne, lookup_delete_eq.
  - by rewrite lookup_delete_eq.
Qed.

Lemma finalize_after_start_witness :
  ∃ st2 dir,
    finalize calm half_started = (Ok tt, st2)
    ∧ procs (os st2) !! 4242 = Some Reaped
    ∧ db_path (self half_started) = Some dir ∧ (dir ∉ files (os st2))
    ∧ unpublished (os st2)
    ∧ _running (self st2) = false.
Proof.
  apply (finalize_after_start unreachable_server calm enabled_options host
           (Raise ConnectionFailure) half_started
           (mkPopen 4242
              (server_argv "/usr/bin/mongod" "/tmp/tmpXq3v9k" 27018 "/dev/null"
                 false false)
              PIPE STDOUT));
    vm_compute; reflexivity.
Defined.

(** X11.  A start followed by a stop gives back the environment: when the
    two entries were absent before [configure], the environment after
    [finalize] is the one before [configure], entry for entry.  Entries of
    the same names that were there before are not restored: they are gone. *)
Theorem environment_after_start_and_stop W W' options o r st1 e st2 child :
  configure W options (mkState o init) = (r, st1) →
  process (self st1) = Some child →
  finalize W' st1 = (e, st2) →
  environ (os st2)
  = delete "TEST_MONGODB_DATABASE" (delete "TEST_MONGODB" (environ o))
  ∧ (unpublished o → environ (os st2) = environ o).
Proof.
  intros Hrun Hchild.
  destruct (configure_spawned _ _ _ _ _ _ Hrun Hchild)
    as (bin & port & name & dir & _ & _ & _ & _ & _ & _ & _ & Hself & Henv & _).
  rewrite finalize_by_exits. unfold finalize_exits.
  rewrite Hself. cbn [configured _running process db_path negb]. cbv zeta.
  rewrite Henv, lookup_insert_ne, lookup_insert_eq by done.
  rewrite lookup_insert_eq.
  assert (delete "TEST_MONGODB_DATABASE"
            (delete "TEST_MONGODB"
               (<["TEST_MONGODB_DATABASE":=name]>
                  (<["TEST_MONGODB":="localhost:" +:+ pretty port]> (environ o))))
          = delete "TEST_MONGODB_DATABASE" (delete "TEST_MONGODB" (environ o)))
    as Hdel.
  { rewrite delete_insert_ne, delete_insert_eq, delete_insert_eq by done.
    done. }
  assert (∀ st,
            environ (os st)
            = delete "TEST_MONGODB_DATABASE"
                (delete "TEST_MONGODB" (environ (os st1)))
            → environ (os st)
              = delete "TEST_MONGODB_DATABASE" (delete "TEST_MONGODB" (environ o))
              ∧ (unpublished o → environ (os st) = environ o)) as Hgoal.
  { intros st ->. rewrite Henv, Hdel. split; [done|]. intros [Hk1 Hk2].
    unfold TEST_MONGODB in Hk1. unfold TEST_MONGODB_DATABASE in Hk2.
    rewrite (delete_id (environ o)) by done. by rewrite delete_id. }
  destruct (signal_raises W'); [intros [= <- <-]; by apply Hgoal|].
  destruct (wait_raises W'); [intros [= <- <-]; by apply Hgoal|].
  destruct (rmtree_raises W'); [intros [= <- <-]; by apply Hgoal|].
  destruct (bool_decide _); intros [= <- <-]; by apply Hgoal.
Qed.

Lemma environment_after_start_and_stop_witness :
  let st2 := snd (finalize calm live) in
  environ (os st2)
  = delete "TEST_MONGODB_DATABASE" (delete "TEST_MONGODB" (environ host))
  ∧ (unpublished host → environ (os st2) = environ host).
Proof.
  intros st2.
  apply (environment_after_start_and_stop calm calm enabled_options host
           (Ok tt) live (Ok tt) st2
           (mkPopen 4242
              (server_argv "/usr/bin/mongod" "/tmp/tmpXq3v9k" 27018 "/dev/null"
                 false false)
              PIPE STDOUT));
    vm_compute; reflexivity.
Defined.

(** ** finalize *)

(** X12.  When the instance is running but an entry of the published
    connection info is no longer in the environment, [finalize] raises
    KeyError for the first missing key and tears nothing down: the process is
    not signalled, no path is removed and the running flag stays set. *)
Theorem finalize_missing_entry W st :
  _running (self st) = true →
  ¬ published (os st) →
  ∃ key st',
    finalize W st = (Raise (KeyError key), st')
    ∧ environ (os st) !! key = None
    ∧ (key = "TEST_MONGODB" ∧ st' = st
       ∨ key = "TEST_MONGODB_DATABASE"
         ∧ environ (os st') = delete "TEST_MONGODB" (environ (os st)))
    ∧ self st' = self st ∧ procs (os st') = procs (os st)
    ∧ files (os st') = files (os st).
Proof.
  intros Hr Hnot. rewrite finalize_by_exits. unfold finalize_exits.
  rewrite Hr. cbn [negb]. cbv zeta.
  destruct (environ (os st) !! "TEST_MONGODB") as [v1|] eqn:Hk1.
  2:{ exists "TEST_MONGODB", st. split_and!; auto. }
  destruct (environ (os st) !! "TEST_MONGODB_DATABASE") as [v2|] eqn:Hk2.
  { destruct Hnot. split; eexists; eassumption. }
  eexists "TEST_MONGODB_DATABASE", _. split; [reflexivity|].
  split_and!; auto.
Qed.

Lemma finalize_missing_entry_witness :
  let st := mkState (set_environ (delete "TEST_MONGODB") (os live)) (self live) in
  ∃ key st',
    finalize calm st = (Raise (KeyError key), st')
    ∧ environ (os st) !! key = None
    ∧ (key = "TEST_MONGODB" ∧ st' = st
       ∨ key = "TEST_MONGODB_DATABASE"
         ∧ environ (os st') = delete "TEST_MONGODB" (environ (os st)))
    ∧ self st' = self st ∧ procs (os st') = procs (os st)
    ∧ files (os st') = files (os st).
Proof.
  intros st. apply (finalize_missing_entry calm st).
  - vm_compute. reflexivity.
  - intros [[v Hv] _]. vm_compute in Hv. discriminate Hv.
Defined.

(** X13.  A [finalize] that raised cannot be retried: whatever step failed,
    the instance is still marked running and TEST_MONGODB is no longer in the
    environment, so every later [finalize] raises KeyError for it and does
    nothing else. *)
Theorem finalize_cannot_be_retried W W' st e st1 :
  finalize W st = (Raise e, st1) →
  finalize W' st1 = (Raise (KeyError "TEST_MONGODB"), st1).
Proof.
  rewrite !finalize_by_exits. unfold finalize_exits.
  destruct (_running (self st)) eqn:Hr; cbn [negb]; [|by intros [=]].
  cbv zeta.
  destruct (environ (os st) !! "TEST_MONGODB") as [v1|] eqn:Hk1.
  2:{ intros [= <- <-]. by rewrite Hr, Hk1. }
  assert (∀ o', environ o' !! "TEST_MONGODB" = None →
            finalize_exits W' (mkState o' (self st))
            = (Raise (KeyError "TEST_MONGODB"), mkState o' (self st))) as Hretry.
  { intros o' Ho'. unfold finalize_exits. cbn [self os]. by rewrite Hr, Ho'. }
  fold (finalize_exits W' st1).
  assert (delete "TEST_MONGODB" (environ (os st)) !! "TEST_MONGODB" = None)
    as Hgone by apply lookup_delete_eq.
  assert (delete "TEST_MONGODB_DATABASE" (delete "TEST_MONGODB" (environ (os st)))
            !! "TEST_MONGODB" = None) as Hgone2
    by (by rewrite lookup_delete_ne).
  destruct (environ (os st) !! "TEST_MONGODB_DATABASE");
    [|intros [= <- <-]; by apply Hretry].
  destruct (process (self st)); [|intros [= <- <-]; by apply Hretry].
  destruct (signal_raises W); [intros [= <- <-]; by apply Hretry|].
  destruct (wait_raises W); [intros [= <- <-]; by apply Hretry|].
  destruct (db_path (self st)); [|intros [= <- <-]; by apply Hretry].
  destruct (rmtree_raises W); [intros [= <- <-]; by apply Hretry|].
  destruct (bool_decide _); [by intros [=]|].
  intros [= <- <-]. by apply Hretry.
Qed.

Lemma finalize_cannot_be_retried_witness :
  finalize calm (snd (finalize stale_process live))
  = (Raise (KeyError "TEST_MONGODB"), snd (finalize stale_process live)).
Proof.
  apply (finalize_cannot_be_retried stale_process calm live OSError).
  vm_compute. reflexivity.
Defined.


(** ** stopContext *)

(** X15.  [stopContext] does nothing at all, and in particular opens no
    connection whatever the server would answer, unless the flag for the
    kind of context at hand is set: with both flags off, for a module when
    only the class flag is set (and conversely), and for a context that is
    neither a module nor a class. *)
Theorem stopContext_does_nothing_unless_asked W ctx st by_module by_class :
  clear_after_module (self st) = Some by_module →
  clear_after_class (self st) = Some by_class →
  by_module && ismodule ctx = false →
  by_class && isclass ctx = false →
  stopContext W ctx st = (Ok tt, st).
Proof.
  intros Hm Hc Hbm Hbc. unfold stopContext. mrun.
  rewrite Hm. mrun. rewrite Hbm. mrun. rewrite Hc. mrun. by rewrite Hbc.
Qed.

Lemma stopContext_does_nothing_unless_asked_witness :
  stopContext listing_fails ClassContext live_cleaning = (Ok tt, live_cleaning)
  ∧ stopContext listing_fails OtherContext live_cleaning = (Ok tt, live_cleaning).
Proof.
  split.
  - apply (stopContext_does_nothing_unless_asked listing_fails ClassContext
             live_cleaning true false); vm_compute; reflexivity.
  - apply (stopContext_does_nothing_unless_asked listing_fails OtherContext
             live_cleaning true false); vm_compute; reflexivity.
Defined.

Lemma filter_ext_elem_of {A} (P Q : A → Prop)
    `{!∀ x, Decision (P x), !∀ x, Decision (Q x)} (l : list A) :
  (∀ x, x ∈ l → P x ↔ Q x) → filter P l = filter Q l.
Proof.
  induction l as [|x l IH]; intros Hext; [done|].
  rewrite !filter_cons, IH.
  - apply decide_ext, Hext. by left.
  - intros y Hy. apply Hext. by right.
Qed.

Ltac mgoal :=
  cbv beta iota delta
    [mbind M_bind bind mret M_ret ret raise upd_self upd_os get_self get_os
     may_raise lift attr close Connection Database collection_names];
  cbn [os self environ files procs conns dbs
       set_environ set_files set_procs set_conns set_dbs].

(** One round of the drop loop. *)
Lemma drop_round W d col s :
  ignore_OperationFailure (drop_collection W d col) s
  = match drop_collection_raises W col with
    | None =>
        (Ok tt,
         mkState (set_dbs (alter (filter (λ c, c ≠ col)) d) (os s)) (self s))
    | Some e => if is_OperationFailure e then (Ok tt, s) else (Raise e, s)
    end.
Proof.
  unfold ignore_OperationFailure, drop_collection. mgoal.
  by destruct (drop_collection_raises W col).
Qed.

(** The drop loop when the server refuses drops with OperationFailure only. *)
Lemma drop_loop_run W d l s :
  Forall (λ col, ∀ e, drop_collection_raises W col = Some e →
                      is_OperationFailure e = true) l →
  ∃ s',
    for_each l (λ col, ignore_OperationFailure (drop_collection W d col)) s
    = (Ok tt, s')
    ∧ self s' = self s ∧ conns (os s') = conns (os s)
    ∧ dbs (os s') !! d
      = filter (λ c, c ∈ l → is_Some (drop_collection_raises W c))
          <$> dbs (os s) !! d
    ∧ ∀ d', d' ≠ d → dbs (os s') !! d' = dbs (os s) !! d'.
Proof.
  intros Hl. revert s. induction Hl as [|col l Hcol _ IH]; intros s.
  - exists s. cbn [for_each]. split_and!; try done.
    destruct (dbs (os s) !! d) as [cur|]; [|done]. cbn. f_equal.
    symmetry. induction cur as [|c cur IHc]; [done|].
    rewrite filter_cons_True; [by rewrite IHc|]. by intros ?%not_elem_of_nil.
  - cbn [for_each]. rewrite bind_run, drop_round.
    destruct (drop_collection_raises W col) as [e|] eqn:Hdrop.
    + rewrite (Hcol e eq_refl).
      destruct (IH s) as (s' & -> & ? & ? & Hd & ?).
      exists s'. split_and!; try done. rewrite Hd.
      apply option_fmap_ext. intros cur. apply list_filter_iff. intros c. split.
      * intros Hc [->|?]%elem_of_cons; by eauto.
      * intros Hc ?. apply Hc. by right.
    + match goal with
      | |- context [for_each l _ ?s1] =>
          destruct (IH s1) as (s' & -> & ? & ? & Hd & Hother)
      end.
      exists s'. cbn [os self conns dbs set_dbs] in *.
      split_and!; try done.
      * rewrite Hd, lookup_alter_eq, <- option_fmap_compose.
        apply option_fmap_ext. intros cur. cbn.
        rewrite list_filter_filter. apply list_filter_iff. intros c. split.
        -- intros [Hc Hne] [->|?]%elem_of_cons; by eauto.
        -- intros Hc. split.
           ++ intros ?. apply Hc. by right.
           ++ intros ->. destruct Hc as [? Hc]; [by left|]. congruence.
      * intros d' Hd'. by rewrite Hother, lookup_alter_ne.
Qed.

Lemma drop_collections_run W s d :
  mongo_database (self s) = Some d →
  Connection_raises W = None →
  collection_names_raises W = None →
  Forall (λ col, ∀ e, drop_collection_raises W col = Some e →
                      is_OperationFailure e = true)
    (default [] (dbs (os s) !! d)) →
  ∃ s',
    drop_collections W s = (Ok tt, s')
    ∧ self s' = self s ∧ conns (os s') = conns (os s)
    ∧ dbs (os s') !! d = refused W <$> dbs (os s) !! d
    ∧ ∀ d', d' ≠ d → dbs (os s') !! d' = dbs (os s) !! d'.
Proof.
  intros Hname Hconn Hlist Hok. unfold drop_collections.
  mgoal. rewrite Hconn. mgoal. rewrite Hname. mgoal. rewrite Hlist. mgoal.
  match goal with
  | |- context [for_each ?cols _ ?s1] =>
      destruct (drop_loop_run W d cols s1 Hok)
        as (s' & -> & Hself & Hconns & Hd & Hother)
  end.
  cbn [os self conns dbs set_conns] in Hself, Hconns, Hd, Hother.
  eexists. split; [reflexivity|]. mgoal.
  split_and!; try done.
  - rewrite Hconns. apply difference_union_fresh.
  - rewrite Hd. destruct (dbs (os s) !! d) as [cur|]; [|done]. cbn. f_equal.
    apply filter_ext_elem_of. intros c Hc. split; [by auto|done].
Qed.

(** X16.  When the flag for the context is set and the server refuses drops
    with OperationFailure only, [stopContext] returns normally and leaves in
    the run's database exactly the collections whose drop was refused, in
    their order; the other databases, the open connections and the plugin
    object are as before. *)
Theorem cleanup_leaves_refused_collections W ctx st by_module by_class d :
  clear_after_module (self st) = Some by_module →
  clear_after_class (self st) = Some by_class →
  (by_module && ismodule ctx) || (by_class && isclass ctx) = true →
  mongo_database (self st) = Some d →
  Connection_raises W = None →
  collection_names_raises W = None →
  Forall (λ col, ∀ e, drop_collection_raises W col = Some e →
                      is_OperationFailure e = true)
    (default [] (dbs (os st) !! d)) →
  ∃ st',
    stopContext W ctx st = (Ok tt, st')
    ∧ dbs (os st') !! d = refused W <$> dbs (os st) !! d
    ∧ (∀ d', d' ≠ d → dbs (os st') !! d' = dbs (os st) !! d')
    ∧ conns (os st') = conns (os st)
    ∧ self st' = self st.
Proof.
  intros Hm Hc Hflag Hname Hconn Hlist Hok.
  destruct (drop_collections_run W st d Hname Hconn Hlist Hok)
    as (st' & Hrun & Hself & Hconns & Hd & Hother).
  exists st'. split; [|done].
  unfold stopContext. mgoal. rewrite Hm. mgoal.
  destruct ctx; cbn [ismodule isclass] in *;
    rewrite ?andb_false_r, ?andb_true_r, ?orb_false_r in Hflag;
    cbn [orb] in Hflag; try discriminate Hflag; subst.
  - cbn [andb]. rewrite Hrun, Hself, Hc. mgoal. by rewrite andb_false_r.
  - rewrite andb_false_r. mgoal. rewrite Hc. mgoal. cbn [andb].
    by rewrite Hrun.
Qed.

Lemma cleanup_leaves_refused_collections_witness :
  ∃ st',
    stopContext calm ModuleContext seeded = (Ok tt, st')
    ∧ dbs (os st') !! "DKRY5HPX9M" = refused calm <$> dbs (os seeded) !! "DKRY5HPX9M"
    ∧ (∀ d', d' ≠ "DKRY5HPX9M" → dbs (os st') !! d' = dbs (os seeded) !! d')
    ∧ conns (os st') = conns (os seeded)
    ∧ self st' = self seeded.
Proof.
  apply (cleanup_leaves_refused_collections calm ModuleContext seeded true false);
    try (vm_compute; reflexivity).
  assert (default [] (dbs (os seeded) !! "DKRY5HPX9M")
          = ["a"; "b"; "system.indexes"]) as -> by (vm_compute; reflexivity).
  repeat constructor; intros e He; vm_compute in He;
    first [discriminate He | injection He as <-; reflexivity].
Defined.

Lemma only_dropped_refl d s : only_dropped d s s.
Proof. unfold only_dropped. split_and!; auto. Qed.

Lemma only_dropped_trans d s1 s2 s3 :
  only_dropped d s1 s2 → only_dropped d s2 s3 → only_dropped d s1 s3.
Proof.
  intros (Hs1 & He1 & Hf1 & Hp1 & Hc1 & Hd1) (Hs2 & He2 & Hf2 & Hp2 & Hc2 & Hd2).
  unfold only_dropped. split_and!; try congruence.
  - by etrans.
  - intros d'.
    destruct (Hd1 d') as [Heq1|(Hd & cur & cur1 & Hcur & Hcur1 & Hsub1)],
             (Hd2 d') as [Heq2|(Hd' & cur2 & cur3 & Hcur2 & Hcur3 & Hsub2)].
    + left. congruence.
    + right. split; [done|]. exists cur2, cur3.
      split_and!; [congruence|done..].
    + right. split; [done|]. exists cur, cur1. split_and!; [done|congruence|done].
    + right. split; [done|]. exists cur, cur3. split_and!; [done..|].
      assert (cur2 = cur1) as -> by congruence. by etrans.
Qed.

Lemma only_dropped_drop d P `{!∀ c : string, Decision (P c)} s :
  only_dropped (Some d) s
    (mkState (set_dbs (alter (filter P) d) (os s)) (self s)).
Proof.
  unfold only_dropped. cbn [os self environ files procs conns dbs set_dbs].
  split_and!; try done.
  intros d'. destruct (decide (d' = d)) as [->|Hne].
  - rewrite lookup_alter_eq. destruct (dbs (os s) !! d) as [cur|]; [|by left].
    right. split; [done|]. exists cur, (filter P cur).
    split_and!; [done..|apply sublist_filter].
  - left. by apply lookup_alter_ne.
Qed.

Lemma only_dropped_opened d c s :
  only_dropped d s (mkState (set_conns (λ cs, {[c]} ∪ cs) (os s)) (self s)).
Proof.
  unfold only_dropped. cbn [os self environ files procs conns dbs set_conns].
  split_and!; auto. apply union_subseteq_r.
Qed.

Lemma drop_loop_only_drops W d cols s :
  only_dropped (Some d) s
    (snd (for_each cols
            (λ col, ignore_OperationFailure (drop_collection W d col)) s)).
Proof.
  revert s. induction cols as [|col cols IH]; intros s; cbn [for_each].
  - apply only_dropped_refl.
  - rewrite bind_run, drop_round.
    destruct (drop_collection_raises W col) as [e|].
    + destruct (is_OperationFailure e); [apply IH|apply only_dropped_refl].
    + eapply only_dropped_trans; [|apply IH]. apply only_dropped_drop.
Qed.

Lemma drop_collections_only_drops W s :
  only_dropped (mongo_database (self s)) s (snd (drop_collections W s)).
Proof.
  unfold drop_collections. mgoal.
  destruct (Connection_raises W); mgoal; [apply only_dropped_refl|].
  destruct (mongo_database (self s)) as [d|]; mgoal;
    [|apply only_dropped_opened].
  destruct (collection_names_raises W); mgoal; [apply only_dropped_opened|].
  match goal with
  | |- context [for_each ?cols ?body ?s1] =>
      pose proof (drop_loop_only_drops W d cols s1) as Hloop;
      pose proof (drop_loop_frame W d cols s1) as Hframe;
      destruct (for_each cols body s1) as [[[]|e] s2]
  end; cbn [snd] in *.
  - destruct (Hframe _ _ eq_refl) as [Hconns _].
    cbn [os conns set_conns] in Hconns.
    destruct Hloop as (Hs & He & Hf & Hp & _ & Hd).
    cbn [os self environ files procs conns dbs set_conns] in *.
    unfold only_dropped.
    cbn [os self environ files procs conns dbs set_conns].
    split_and!; try done.
    rewrite Hconns, difference_union_fresh. done.
  - eapply only_dropped_trans; [|exact Hloop]. apply only_dropped_opened.
Qed.

(** X17.  However it ends, [stopContext] leaves alone the plugin object, the
    environment, the file system and the processes; no connection that was
    open is closed; every database other than the run's is as before, and the
    run's database can only have lost collections (what is left is a sublist
    of what was there). *)
Theorem stopContext_only_drops W ctx st :
  let st' := snd (stopContext W ctx st) in
  self st' = self st
  ∧ environ (os st') = environ (os st)
  ∧ files (os st') = files (os st)
  ∧ procs (os st') = procs (os st)
  ∧ conns (os st) ⊆ conns (os st')
  ∧ ∀ d, dbs (os st') !! d = dbs (os st) !! d
         ∨ (mongo_database (self st) = Some d
            ∧ ∃ cur cur', dbs (os st) !! d = Some cur
                          ∧ dbs (os st') !! d = Some cur'
                          ∧ cur' `sublist_of` cur).
Proof.
  cbv zeta. change (only_dropped (mongo_database (self st)) st
                      (snd (stopContext W ctx st))).
  unfold stopContext. mgoal.
  destruct (clear_after_module (self st)) as [by_module|]; mgoal;
    [|apply only_dropped_refl].
  assert (∀ b s,
            only_dropped (mongo_database (self s)) s
              (snd ((if b : bool then drop_collections W else ret tt) s)))
    as Hstep.
  { intros [] s; [apply drop_collections_only_drops|apply only_dropped_refl]. }
  match goal with
  | |- only_dropped _ _ (snd (let (_, _) := ?t in _)) =>
      assert (only_dropped (mongo_database (self st)) st (snd t)) as H1
        by apply (Hstep (by_module && ismodule ctx) st);
      destruct t as [[[]|e] s1]
  end; cbn [snd] in *; [|done].
  assert (self s1 = self st) as Hself by apply H1.
  rewrite Hself.
  destruct (clear_after_class (self st)) as [by_class|]; mgoal; [|done].
  eapply only_dropped_trans; [exact H1|].
  rewrite <- Hself. apply Hstep.
Qed.

Lemma for_each_app {A} (pre l : list A) (body : A → M unit) s :
  for_each (pre ++ l)%list body s
  = match for_each pre body s with
    | (Ok _, s') => for_each l body s'
    | (Raise e, s') => (Raise e, s')
    end.
Proof.
  revert s. induction pre as [|x pre IH]; intros s; [done|].
  cbn [for_each app]. rewrite !bind_run.
  destruct (body x s) as [[[]|e] s1]; [apply IH|done].
Qed.

(** X18.  An error other than OperationFailure from a drop aborts the
    cleanup at that collection: [stopContext] raises it, the collections
    visited before it whose drop was accepted are gone, the failing one and
    the ones after it are still there, and the cleanup connection is left
    open. *)
Theorem drop_error_aborts_cleanup W ctx st by_module by_class d pre col post e :
  clear_after_module (self st) = Some by_module →
  clear_after_class (self st) = Some by_class →
  (by_module && ismodule ctx) || (by_class && isclass ctx) = true →
  mongo_database (self st) = Some d →
  Connection_raises W = None →
  collection_names_raises W = None →
  dbs (os st) !! d = Some (pre ++ col :: post)%list →
  Forall (λ c, ∀ e', drop_collection_raises W c = Some e' →
                     is_OperationFailure e' = true) pre →
  drop_collection_raises W col = Some e →
  is_OperationFailure e = false →
  ∃ st',
    stopContext W ctx st = (Raise e, st')
    ∧ dbs (os st') !! d
      = Some (filter (λ c, c ∈ pre → is_Some (drop_collection_raises W c))
                (pre ++ col :: post)%list)
    ∧ conns (os st') = {[fresh (conns (os st))]} ∪ conns (os st)
    ∧ self st' = self st.
Proof.
  intros Hm Hc Hflag Hname Hconn Hlist Hcur Hpre Hcol Hop.
  assert (∃ st',
            drop_collections W st = (Raise e, st')
            ∧ dbs (os st') !! d
              = Some (filter (λ c, c ∈ pre → is_Some (drop_collection_raises W c))
                        (pre ++ col :: post)%list)
            ∧ conns (os st') = {[fresh (conns (os st))]} ∪ conns (os st)
            ∧ self st' = self st) as (st' & Hrun & Hrest).
  { unfold drop_collections.
    mgoal. rewrite Hconn. mgoal. rewrite Hname. mgoal. rewrite Hlist. mgoal.
    rewrite Hcur. cbn [from_option id]. rewrite for_each_app.
    match goal with
    | |- context [for_each pre _ ?s1] =>
        destruct (drop_loop_run W d pre s1 Hpre)
          as (s2 & -> & Hself & Hconns & Hd & _)
    end.
    cbn [os self conns dbs set_conns] in Hself, Hconns, Hd.
    cbn [for_each]. rewrite bind_run, drop_round, Hcol, Hop.
    exists s2. split; [done|]. by rewrite Hd, Hcur. }
  exists st'. split; [|done].
  unfold stopContext. mgoal. rewrite Hm. mgoal.
  destruct ctx; cbn [ismodule isclass] in *;
    rewrite ?andb_false_r, ?andb_true_r, ?orb_false_r in Hflag;
    cbn [orb] in Hflag; try discriminate Hflag; subst.
  - cbn [andb]. by rewrite Hrun.
  - rewrite andb_false_r. mgoal. rewrite Hc. mgoal. cbn [andb].
    by rewrite Hrun.
Qed.

Lemma drop_error_aborts_cleanup_witness :
  ∃ st',
    stopContext breaking ModuleContext crowded = (Raise ConnectionFailure, st')
    ∧ dbs (os st') !! "DKRY5HPX9M"
      = Some (filter (λ c, c ∈ ["a"; "system.indexes"]
                           → is_Some (drop_collection_raises breaking c))
                (["a"; "system.indexes"] ++ "broken" :: ["b"; "a"])%list)
    ∧ conns (os st') = {[fresh (conns (os crowded))]} ∪ conns (os crowded)
    ∧ self st' = self crowded.
Proof.
  apply (drop_error_aborts_cleanup breaking ModuleContext crowded true false
           "DKRY5HPX9M" ["a"; "system.indexes"] "broken" ["b"; "a"]
           ConnectionFailure);
    try (vm_compute; reflexivity).
  repeat constructor; intros e He; vm_compute in He;
    first [discriminate He | injection He as <-; reflexivity].
Defined.
